(** * Tubely file server: signed asset resolver and upload handlers

    A shallow embedding of [src/main.go] ([dbVideoToSignedVideo]),
    [src/handler_upload_video.go] ([handlerUploadVideo], of which
    [src/unnamed/part_000] is a second, identical copy) and
    [src/unnamed/part_001] ([handlerUploadThumbnail], [mimeToExt]).

    Go strings are byte strings and are modelled by [string]; every call that
    leaves the repository's source (the uuid, auth, database, mime, os, io,
    rand, base64, S3 and presigning calls) is an observable [Call] that the
    environment answers with the Go result tuple.  A function of the source
    is a finite tree of such calls ([Prog]); a run of it is the list of the
    calls it made, each with its answer, and its outcome. *)

From Stdlib Require Import String Ascii List ZArith NArith Bool Lia.
From Stdlib Require Import QArith.
From Stdlib Require PrimFloat Uint63.
Import ListNotations.
Local Open Scope list_scope.
Local Open Scope string_scope.

(** ** Strings (package [strings]) *)

(** [strings.HasPrefix(s, prefix)]: [len(s) >= len(prefix) && s[:len(prefix)] == prefix]. *)
Definition strings_HasPrefix (s pre : string) : bool := String.prefix pre s.

(** [strings.Split(s, sep)] for a separator of one byte, which is how the
    source calls it ([","]): the fields between the separators, in order; a
    string without separator is the only field. *)
Fixpoint strings_Split (s : string) (sep : ascii) : list string :=
  match s with
  | EmptyString => [EmptyString]
  | String a s' =>
      if Ascii.eqb a sep then EmptyString :: strings_Split s' sep
      else match strings_Split s' sep with
           | h :: t => String a h :: t
           | [] => [String a EmptyString]
           end
  end.


Definition comma : ascii := ","%char.

(** ** Data model *)

(** A Go [error] value, by its message. *)
Definition error : Type := string.

(** [err != nil] *)
Definition notNil {A : Type} (err : option A) : bool :=
  match err with Some _ => true | None => false end.

(** [uuid.UUID] is [[16]byte]; the 128-bit number it spells, big-endian. *)
Definition UUID : Type := N.

Definition hexDigit (n : N) : ascii :=
  nth (N.to_nat n)
      (list_ascii_of_string "0123456789abcdef") "0"%char.

(** The [len] hexadecimal digits of [u] from digit [from] (digit 0 is the
    most significant of the 32). *)
Fixpoint hexDigits (u : UUID) (from : N) (len : nat) : string :=
  match len with
  | O => EmptyString
  | S len' =>
      String (hexDigit (N.land (N.shiftr u (4 * (31 - from))) 15))
             (hexDigits u (from + 1) len')
  end.

(** [uuid.UUID.String]: xxxxxxxx-xxxx-xxxx-xxxx-xxxxxxxxxxxx. *)
Definition uuid_String (u : UUID) : string :=
  hexDigits u 0 8 ++ "-" ++ hexDigits u 8 4 ++ "-" ++ hexDigits u 12 4
  ++ "-" ++ hexDigits u 16 4 ++ "-" ++ hexDigits u 20 12.

(** Modelled from the spec: [database.Video] is declared in
    [internal/database], which is not part of the source at hand.  The spec's
    data model gives it an id, an owning user id, a media reference and a
    thumbnail reference that may be absent, plus descriptive fields; the
    handlers read and write [UserID], [VideoURL] and [ThumbnailURL]. *)
Record Video : Type := mkVideo {
  ID : UUID;
  CreatedAt : Z;
  UpdatedAt : Z;
  ThumbnailURL : option string;
  VideoURL : option string;
  Title : string;
  Description : string;
  UserID : UUID
}.

(** [database.Video{}] *)
Definition zeroVideo : Video :=
  mkVideo 0%N 0%Z 0%Z None None "" "" 0%N.

(** [video.VideoURL = &url] on the handler's own copy of the struct. *)
Definition setVideoURL (video : Video) (url : option string) : Video :=
  mkVideo (ID video) (CreatedAt video) (UpdatedAt video) (ThumbnailURL video)
          url (Title video) (Description video) (UserID video).

(** [video.ThumbnailURL = &url] *)
Definition setThumbnailURL (video : Video) (url : option string) : Video :=
  mkVideo (ID video) (CreatedAt video) (UpdatedAt video) url
          (VideoURL video) (Title video) (Description video) (UserID video).

(** Handles of the two clients the configuration carries. *)
Definition DBClient : Type := N.
Definition S3Client : Type := N.

(** [apiConfig] of [main.go]. *)
Record apiConfig : Type := mkApiConfig {
  db : DBClient;
  jwtSecret : string;
  platform : string;
  filepathRoot : string;
  assetsRoot : string;
  s3Bucket : string;
  s3Region : string;
  s3CfDistribution : string;
  port : string;
  s3Client : S3Client
}.

(** [http.Header] and [textproto.MIMEHeader]: keys to value lists. *)
Definition Header : Type := list (string * list string).

(** [Header.Get] for a key already in canonical form (["Content-Type"] is):
    the first value stored under the key, or [""]. *)
Fixpoint Header_Get (h : Header) (key : string) : string :=
  match h with
  | [] => ""
  | (k, vs) :: h' =>
      if String.eqb k key then match vs with v :: _ => v | [] => "" end
      else Header_Get h' key
  end.

(** [multipart.FileHeader] *)
Record FileHeader : Type := mkFileHeader {
  Filename : string;
  FileHeader_Header : Header;
  Size : Z
}.

(** An open [multipart.File], and an open [*os.File] with its [Name()]. *)
Definition MultipartFile : Type := N.
Record OsFile : Type := mkOsFile { fd : N; Name : string }.

(** The parts of [*http.Request] the handlers read directly. *)
Record Request : Type := mkRequest {
  PathValue : string -> string;
  Request_Header : Header
}.

(** Modelled from the spec: [respondWithError] and [respondWithJSON] are not
    part of the source at hand; each handler calls one of them exactly once
    and returns, so a handler's result is the response it wrote: a status
    code and either an error message (with the error handed over for the
    log) or a JSON payload. *)
Inductive Payload : Type :=
| ErrorPayload (msg : string) (err : option error)
| MapPayload (m : list (string * string))
| VideoPayload (v : Video).

Record Response : Type := mkResponse { status : Z; payload : Payload }.

Definition StatusOK : Z := 200.
Definition StatusBadRequest : Z := 400.
Definition StatusUnauthorized : Z := 401.
Definition StatusNotFound : Z := 404.
Definition StatusUnsupportedMediaType : Z := 415.
Definition StatusInternalServerError : Z := 500.

(** [time.Duration] counts nanoseconds in an [int64]. *)
Definition Nanosecond : Z := 1.
Definition Second : Z := 1000000000 * Nanosecond.
Definition Minute : Z := 60 * Second.
Definition maxInt64 : Z := 2 ^ 63 - 1.

(** [io.SeekStart] *)
Definition SeekStart : Z := 0.

(** ** Calls that leave the source, and their answers *)

Inductive Call : Type :=
| HttpMaxBytesReader (limit : Z)
| UuidParse (s : string)
| AuthGetBearerToken (h : Header)
| AuthValidateJWT (token secret : string)
| DbGetVideo (d : DBClient) (id : UUID)
| DbUpdateVideo (d : DBClient) (v : Video)
| RequestFormFile (key : string)
| MimeParseMediaType (v : string)
| OsCreateTemp (dir pattern : string)
| OsCreate (name : string)
| OsRemove (name : string)
| IoCopy (dst : OsFile) (src : MultipartFile)
| OsFileSeek (f : OsFile) (offset whence : Z)
| OsFileClose (f : OsFile)
| MultipartFileClose (f : MultipartFile)
| RandRead (len : nat)
| Base64RawURLEncodeToString (b : list Byte.byte)
| S3PutObject (c : S3Client) (bucket key : string) (body : OsFile)
    (contentType : string)
| GeneratePresignedURL (c : S3Client) (bucket key : string) (expireTime : Z)
| FmtPrint (s : string)
| FilepathJoin (dir file : string)
| FilepathBase (path : string).

(** The Go result tuple of each call; an [error] result is [None] for [nil]. *)
Definition Answer (c : Call) : Type :=
  match c with
  | HttpMaxBytesReader _ => unit
  | UuidParse _ => (UUID * option error)%type
  | AuthGetBearerToken _ => (string * option error)%type
  | AuthValidateJWT _ _ => (UUID * option error)%type
  | DbGetVideo _ _ => (Video * option error)%type
  | DbUpdateVideo _ _ => option error
  | RequestFormFile _ => (MultipartFile * FileHeader * option error)%type
  | MimeParseMediaType _ =>
      (string * list (string * string) * option error)%type
  | OsCreateTemp _ _ => (OsFile * option error)%type
  | OsCreate _ => (OsFile * option error)%type
  | OsRemove _ => option error
  | IoCopy _ _ => (Z * option error)%type
  | OsFileSeek _ _ _ => (Z * option error)%type
  | OsFileClose _ => option error
  | MultipartFileClose _ => option error
  | RandRead _ => (list Byte.byte * option error)%type
  | Base64RawURLEncodeToString _ => string
  | S3PutObject _ _ _ _ _ => option error
  | GeneratePresignedURL _ _ _ _ => (string * option error)%type
  | FmtPrint _ => unit
  | FilepathJoin _ _ => string
  | FilepathBase _ => string
  end.

(** A call that changes what outlives the request: a database row, a file
    on disk or an object in the store. *)
Definition mutates (c : Call) : bool :=
  match c with
  | DbUpdateVideo _ _ | OsCreateTemp _ _ | OsCreate _ | OsRemove _
  | IoCopy _ _ | S3PutObject _ _ _ _ _ => true
  | _ => false
  end.

(** ** Programs, runs and traces *)

Inductive Prog (R : Type) : Type :=
| Ret (r : R)
| Panic (msg : string)
| Vis (c : Call) (k : Answer c -> Prog R).

Arguments Ret {R} r.
Arguments Panic {R} msg.
Arguments Vis {R} c k.

Fixpoint bind {A B : Type} (p : Prog A) (f : A -> Prog B) : Prog B :=
  match p with
  | Ret a => f a
  | Panic msg => Panic msg
  | Vis c k => Vis c (fun x => bind (k x) f)
  end.

Definition call (c : Call) : Prog (Answer c) := Vis c Ret.

Declare Scope prog_scope.
Delimit Scope prog_scope with prog.
Notation "x <- p ;; q" := (bind p (fun x => q))
  (at level 61, p at next level, right associativity) : prog_scope.
Notation "' pat <- p ;; q" := (bind p (fun x => match x with pat => q end))
  (at level 61, pat pattern, p at next level, right associativity) : prog_scope.
Notation "p ;; q" := (bind p (fun _ => q))
  (at level 61, right associativity) : prog_scope.
Local Open Scope prog_scope.

(** [defer d] placed in front of [body]: [d] runs when the function leaves
    [body], by a return or by a panic. *)
Fixpoint defer {A R : Type} (d : Prog A) (body : Prog R) : Prog R :=
  match body with
  | Ret r => d ;; Ret r
  | Panic msg => d ;; Panic msg
  | Vis c k => Vis c (fun x => defer d (k x))
  end.

Inductive Outcome (R : Type) : Type :=
| Returned (r : R)
| Panicked (msg : string).

Arguments Returned {R} r.
Arguments Panicked {R} msg.

(** One observed call with its answer. *)
Definition Obs : Type := { c : Call & Answer c }.
Definition obs (c : Call) (a : Answer c) : Obs := existT Answer c a.
Definition Trace : Type := list Obs.

(** [runs p t o]: [p] can make exactly the calls of [t], receive the
    answers recorded there, and end with [o]. *)
Fixpoint runs {R : Type} (p : Prog R) (t : Trace) (o : Outcome R) : Prop :=
  match p with
  | Ret r => t = [] /\ o = Returned r
  | Panic msg => t = [] /\ o = Panicked msg
  | Vis c k => exists (a : Answer c) (t' : Trace),
      t = obs c a :: t' /\ runs (k a) t' o
  end.

(** An environment answers every call; [run env p] executes [p] against it
    and records the trace. *)
Definition Env : Type := forall c : Call, Answer c.

Fixpoint run {R : Type} (env : Env) (p : Prog R) : Trace * Outcome R :=
  match p with
  | Ret r => ([], Returned r)
  | Panic msg => ([], Panicked msg)
  | Vis c k => let (t, o) := run env (k (env c)) in (obs c (env c) :: t, o)
  end.

(** ** The signed asset resolver ([main.go]) *)

(** [15*60*1e9], the constant handed to the presigner as its [time.Duration]. *)
Definition presignExpiry : Z := 15 * 60 * 10 ^ 9.

(** [s[i]] on a slice of strings: a run-time panic out of range. *)
Definition index {R : Type} (l : list string) (i : nat)
    (k : string -> Prog R) : Prog R :=
  match nth_error l i with
  | Some x => k x
  | None => Panic "index out of range"
  end.

Definition dbVideoToSignedVideo (cfg : apiConfig) (video : Video)
    : Prog (Video * option error) :=
  match VideoURL video with
  | None => Ret (video, None)
  | Some url =>
      if negb (strings_HasPrefix url (s3Bucket cfg ++ ","))
      then Ret (video, None)
      else
        let s3Details := strings_Split url comma in
        index s3Details 0 (fun s3Bucket =>
        index s3Details 1 (fun s3Key =>
        '(signedURL, err) <-
           call (GeneratePresignedURL (s3Client cfg) s3Bucket s3Key
                                      presignExpiry) ;;
        if notNil err then Ret (zeroVideo, err)
        else Ret (setVideoURL video (Some signedURL), None)))
  end.

(** ** The upload handlers *)

Definition respondWithError (code : Z) (msg : string) (err : option error)
    : Prog Response :=
  Ret (mkResponse code (ErrorPayload msg err)).

Definition respondWithJSON (code : Z) (p : Payload) : Prog Response :=
  Ret (mkResponse code p).

Definition newline : string := String (ascii_of_nat 10) EmptyString.

(** [!=] on [uuid.UUID] *)
Definition uuid_neq (a b : UUID) : bool := negb (N.eqb a b).

(** [handlerUploadVideo] of [handler_upload_video.go]. *)
Definition handlerUploadVideo (cfg : apiConfig) (r : Request) : Prog Response :=
  call (HttpMaxBytesReader (Z.shiftl 1 30)) ;;
  let videoIDString := PathValue r "videoID" in
  '(videoID, err) <- call (UuidParse videoIDString) ;;
  if notNil err then respondWithError StatusBadRequest "Invalid ID" err else
  '(token, err) <- call (AuthGetBearerToken (Request_Header r)) ;;
  if notNil err
  then respondWithError StatusUnauthorized "Couldn't find JWT" err else
  '(userID, err) <- call (AuthValidateJWT token (jwtSecret cfg)) ;;
  if notNil err
  then respondWithError StatusUnauthorized "Couldn't validate JWT" err else
  '(video, err) <- call (DbGetVideo (db cfg) videoID) ;;
  if notNil err
  then respondWithError StatusInternalServerError "Couldn't get video" err else
  if uuid_neq (UserID video) userID
  then respondWithError StatusNotFound "Video not found" err else
  '(videoFile, fileHeader, err) <- call (RequestFormFile "video") ;;
  if notNil err
  then respondWithError StatusBadRequest "Couldn't get file from form" err else
  defer (call (MultipartFileClose videoFile)) (
  let mediaType := Header_Get (FileHeader_Header fileHeader) "Content-Type" in
  '(mediaType, _, err) <- call (MimeParseMediaType mediaType) ;;
  if notNil err
  then respondWithError StatusBadRequest "Invalid media type" err else
  if String.eqb mediaType "video/mp4" then
    '(tempFile, err') <-
       call (OsCreateTemp (assetsRoot cfg) "tubely-upload.mp4") ;;
    if notNil err'
    then respondWithError StatusInternalServerError
                          "Couldn't create temp file" err' else
    defer (call (OsRemove (Name tempFile))) (
    defer (call (OsFileClose tempFile)) (
    call (IoCopy tempFile videoFile) ;;
    call (OsFileSeek tempFile 0 SeekStart) ;;
    '(s3Key, err') <- call (RandRead 32) ;;
    if notNil err'
    then respondWithError StatusInternalServerError
                          "Couldn't generate random S3 key" err' else
    encoded <- call (Base64RawURLEncodeToString s3Key) ;;
    let s3KeyString := encoded ++ ".mp4" in
    err' <- call (S3PutObject (s3Client cfg) (s3Bucket cfg) s3KeyString
                              tempFile mediaType) ;;
    if notNil err'
    then respondWithError StatusInternalServerError
                          "Couldn't upload to S3" err' else
    let videoURL :=
      "https://" ++ s3Bucket cfg ++ ".s3." ++ s3Region cfg
      ++ ".amazonaws.com/" ++ s3KeyString in
    call (FmtPrint ("Uploaded video to S3 at location " ++ videoURL
                    ++ newline)) ;;
    let video := setVideoURL video (Some videoURL) in
    err' <- call (DbUpdateVideo (db cfg) video) ;;
    if notNil err'
    then respondWithError StatusInternalServerError
                          "Couldn't update video metadata" err' else
    respondWithJSON StatusOK (MapPayload [("videoURL", videoURL)])))
  else respondWithError StatusUnsupportedMediaType
                        "Unsupported video format" err).

(** [mimeToExt] of the thumbnail handler's file. *)
Definition mimeToExt (mime : string) : string :=
  if String.eqb mime "image/jpeg" then "jpg"
  else if String.eqb mime "image/png" then "png"
  else if String.eqb mime "image/gif" then "gif"
  else "bin".

(** [handlerUploadThumbnail]. *)
Definition handlerUploadThumbnail (cfg : apiConfig) (r : Request)
    : Prog Response :=
  let videoIDString := PathValue r "videoID" in
  '(videoID, err) <- call (UuidParse videoIDString) ;;
  if notNil err then respondWithError StatusBadRequest "Invalid ID" err else
  '(token, err) <- call (AuthGetBearerToken (Request_Header r)) ;;
  if notNil err
  then respondWithError StatusUnauthorized "Couldn't find JWT" err else
  '(userID, err) <- call (AuthValidateJWT token (jwtSecret cfg)) ;;
  if notNil err
  then respondWithError StatusUnauthorized "Couldn't validate JWT" err else
  call (FmtPrint ("uploading thumbnail for video " ++ uuid_String videoID
                  ++ " by user " ++ uuid_String userID ++ newline)) ;;
  '(file, fileHeader, err) <- call (RequestFormFile "thumbnail") ;;
  if notNil err
  then respondWithError StatusBadRequest "Couldn't get file from form" err else
  defer (call (MultipartFileClose file)) (
  let mediaType := Header_Get (FileHeader_Header fileHeader) "Content-Type" in
  pathToFile <-
    call (FilepathJoin (assetsRoot cfg)
            (uuid_String videoID ++ "." ++ mimeToExt mediaType)) ;;
  '(newFile, err) <- call (OsCreate pathToFile) ;;
  if notNil err
  then respondWithError StatusInternalServerError "Couldn't create file" err
  else
  defer (call (OsFileClose newFile)) (
  '(_, err) <- call (IoCopy newFile file) ;;
  if notNil err
  then respondWithError StatusInternalServerError "Couldn't save file" err
  else
  base <- call (FilepathBase pathToFile) ;;
  let thumbnailURL := "http://localhost:" ++ port cfg ++ "/assets/" ++ base in
  '(video, err) <- call (DbGetVideo (db cfg) videoID) ;;
  if notNil err
  then respondWithError StatusInternalServerError
                        "Couldn't get video metadata" err else
  if uuid_neq (UserID video) userID
  then respondWithError StatusUnauthorized "Unauthorized" err else
  let video := setThumbnailURL video (Some thumbnailURL) in
  err <- call (DbUpdateVideo (db cfg) video) ;;
  if notNil err
  then respondWithError StatusInternalServerError
                        "Couldn't update video metadata" err else
  respondWithJSON StatusOK (VideoPayload video))).

(** ** Reading a trace *)

Definition callOf (o : Obs) : Call := projT1 o.
Definition calls (t : Trace) : list Call := map callOf t.

Fixpoint firstSome {A B : Type} (f : A -> option B) (l : list A) : option B :=
  match l with
  | [] => None
  | x :: l' => match f x with Some b => Some b | None => firstSome f l' end
  end.

(** The requester id of an accepted access token. *)
Definition validatedUserOf (o : Obs) : option UUID :=
  match o with
  | existT _ c a =>
      match c return Answer c -> option UUID with
      | AuthValidateJWT _ _ =>
          fun a => match a with (uid, None) => Some uid | _ => None end
      | _ => fun _ => None
      end a
  end.

(** The video record the metadata store handed out. *)
Definition fetchedVideoOf (o : Obs) : option Video :=
  match o with
  | existT _ c a =>
      match c return Answer c -> option Video with
      | DbGetVideo _ _ =>
          fun a => match a with (v, None) => Some v | _ => None end
      | _ => fun _ => None
      end a
  end.

(** The media type [mime.ParseMediaType] made of the Content-Type. *)
Definition parsedMediaTypeOf (o : Obs) : option string :=
  match o with
  | existT _ c a =>
      match c return Answer c -> option string with
      | MimeParseMediaType _ =>
          fun a => match a with (mt, _, None) => Some mt | _ => None end
      | _ => fun _ => None
      end a
  end.

(** What the presigner answered. *)
Definition presignAnswerOf (o : Obs) : option (string * option error) :=
  match o with
  | existT _ c a =>
      match c return Answer c -> option (string * option error) with
      | GeneratePresignedURL _ _ _ _ => fun a => Some a
      | _ => fun _ => None
      end a
  end.

Definition isPresign (c : Call) : bool :=
  match c with GeneratePresignedURL _ _ _ _ => true | _ => false end.

Definition isS3PutObject (c : Call) : bool :=
  match c with S3PutObject _ _ _ _ _ => true | _ => false end.

Definition isDbUpdateVideo (c : Call) : bool :=
  match c with DbUpdateVideo _ _ => true | _ => false end.

(** The expiry arguments of the presigning requests among [cs]. *)
Fixpoint presignExpiries (cs : list Call) : list Z :=
  match cs with
  | [] => []
  | GeneratePresignedURL _ _ _ e :: cs' => e :: presignExpiries cs'
  | _ :: cs' => presignExpiries cs'
  end.

(** The permanent address [handlerUploadVideo] builds for an object. *)
Definition permanentURL (cfg : apiConfig) (s3KeyString : string) : string :=
  "https://" ++ s3Bucket cfg ++ ".s3." ++ s3Region cfg
  ++ ".amazonaws.com/" ++ s3KeyString.

(** ** A reference deployment, for concrete runs *)

Definition alice : UUID := 1%N.
Definition bob : UUID := 2%N.
Definition holidayID : UUID := 7%N.

Definition tubelyCfg : apiConfig :=
  mkApiConfig 1%N "jwt-secret" "dev" "/srv/tubely/app" "/srv/tubely/assets"
              "tubely-private" "us-east-1" "d111.cloudfront.net" "8091" 1%N.

Definition mybucketCfg : apiConfig :=
  mkApiConfig 1%N "jwt-secret" "dev" "/srv/tubely/app" "/srv/tubely/assets"
              "mybucket" "us-east-1" "d111.cloudfront.net" "8091" 1%N.

(** Alice's video, with the media reference [ref]. *)
Definition holiday (ref : option string) : Video :=
  mkVideo holidayID 1700000000 1700000000 None ref
          "Holiday" "Beach clip" alice.

Definition uploadRequest : Request :=
  mkRequest (fun _ => "00000000-0000-0000-0000-000000000007")
            [("Authorization", ["Bearer eyJhbGciOi.e30.c2ln"])].

(** base64url of 32 zero bytes, without padding. *)
Definition zeroKey : string := "AAAAAAAAAAAAAAAAAAAAAAAAAAAAAAAAAAAAAAAAAAA".

(** An environment in which every call succeeds: the access token belongs
    to [requester], the store holds [stored], the uploaded part declares
    [contentType], and the presigner answers [signed]. *)
Definition deployment (requester : UUID) (stored : Video)
    (contentType : string) (signed : string * option error) : Env :=
  fun c =>
    match c return Answer c with
    | HttpMaxBytesReader _ => tt
    | UuidParse _ => (ID stored, None)
    | AuthGetBearerToken _ => ("eyJhbGciOi.e30.c2ln", None)
    | AuthValidateJWT _ _ => (requester, None)
    | DbGetVideo _ _ => (stored, None)
    | DbUpdateVideo _ _ => None
    | RequestFormFile _ =>
        (3%N, mkFileHeader "upload" [("Content-Type", [contentType])] 4, None)
    | MimeParseMediaType v => (v, [], None)
    | OsCreateTemp dir pattern =>
        (mkOsFile 4 (dir ++ "/" ++ pattern ++ "2381"), None)
    | OsCreate name => (mkOsFile 5 name, None)
    | OsRemove _ => None
    | IoCopy _ _ => (4%Z, None)
    | OsFileSeek _ offset _ => (offset, None)
    | OsFileClose _ => None
    | MultipartFileClose _ => None
    | RandRead len => (repeat Byte.x00 len, None)
    | Base64RawURLEncodeToString _ => zeroKey
    | S3PutObject _ _ _ _ _ => None
    | GeneratePresignedURL _ _ _ _ => signed
    | FmtPrint _ => tt
    | FilepathJoin dir file => dir ++ "/" ++ file
    | FilepathBase path => last (strings_Split path "/"%char) ""
    end.

Definition signedHoliday : string :=
  "https://mybucket.s3.us-east-1.amazonaws.com/abc123.mp4?X-Amz-Expires=900&X-Amz-Signature=5d2c".

Definition rawReference : string := "mybucket,abc123.mp4".

(** Alice uploads an MP4 for her video. *)
Definition ownerUploadRun : Trace * Outcome Response :=
  run (deployment alice (holiday None) "video/mp4" ("", None))
      (handlerUploadVideo tubelyCfg uploadRequest).

(** Alice uploads a WebM file for her video. *)
Definition webmUploadRun : Trace * Outcome Response :=
  run (deployment alice (holiday None) "video/webm" ("", None))
      (handlerUploadVideo tubelyCfg uploadRequest).

(** Bob, with a valid token of his own, uploads an MP4 for Alice's video. *)
Definition intruderUploadRun : Trace * Outcome Response :=
  run (deployment bob (holiday None) "video/mp4" ("", None))
      (handlerUploadVideo tubelyCfg uploadRequest).

(** Bob, with a valid token of his own, uploads a thumbnail for Alice's
    video. *)
Definition intruderThumbnailRun : Trace * Outcome Response :=
  run (deployment bob (holiday None) "image/png" ("", None))
      (handlerUploadThumbnail tubelyCfg uploadRequest).

(** Resolving ["mybucket,abc123.mp4"] with the bucket [mybucket] configured
    and a presigner that answers. *)
Definition signedResolveRun : Trace * Outcome (Video * option error) :=
  run (deployment alice (holiday None) "video/mp4" (signedHoliday, None))
      (dbVideoToSignedVideo mybucketCfg (holiday (Some rawReference))).

(** The same with a presigner that fails. *)
Definition failedResolveRun : Trace * Outcome (Video * option error) :=
  run (deployment alice (holiday None) "video/mp4"
         ("", Some "presign: failed to sign request"))
      (dbVideoToSignedVideo mybucketCfg (holiday (Some rawReference))).



(** ** More ways to read a trace *)

(** The byte [c] occurs in [s]. *)
Fixpoint hasByte (c : ascii) (s : string) : bool :=
  match s with
  | EmptyString => false
  | String a s' => Ascii.eqb a c || hasByte c s'
  end.

Definition slash : ascii := "/"%char.

(** The calls a handler may make before it knows who is asking. *)
Definition beforeAuth (c : Call) : bool :=
  match c with
  | HttpMaxBytesReader _ | UuidParse _ | AuthGetBearerToken _
  | AuthValidateJWT _ _ => true
  | _ => false
  end.

Definition isOsRemove (c : Call) : bool :=
  match c with OsRemove _ => true | _ => false end.

(** The temporary file [os.CreateTemp] opened. *)
Definition createdTempOf (o : Obs) : option OsFile :=
  match o with
  | existT _ c a =>
      match c return Answer c -> option OsFile with
      | OsCreateTemp _ _ =>
          fun a => match a with (f, None) => Some f | _ => None end
      | _ => fun _ => None
      end a
  end.

(** The file [os.Create] opened. *)
Definition createdFileOf (o : Obs) : option OsFile :=
  match o with
  | existT _ c a =>
      match c return Answer c -> option OsFile with
      | OsCreate _ =>
          fun a => match a with (f, None) => Some f | _ => None end
      | _ => fun _ => None
      end a
  end.

(** The uploaded part [r.FormFile] opened. *)
Definition formFileOf (o : Obs) : option MultipartFile :=
  match o with
  | existT _ c a =>
      match c return Answer c -> option MultipartFile with
      | RequestFormFile _ =>
          fun a => match a with (f, _, None) => Some f | _ => None end
      | _ => fun _ => None
      end a
  end.

(** The error with which the metadata store refused to hand out a video. *)
Definition fetchErrorOf (o : Obs) : option error :=
  match o with
  | existT _ c a =>
      match c return Answer c -> option error with
      | DbGetVideo _ _ => fun a => snd a
      | _ => fun _ => None
      end a
  end.

(** What the object store was asked to keep, when it agreed. *)
Definition storedObjectOf (o : Obs)
    : option (S3Client * string * string * string) :=
  match o with
  | existT _ c a =>
      match c return Answer c -> option (S3Client * string * string * string)
      with
      | S3PutObject cl bucket key _ contentType =>
          fun a => match a with
                   | None => Some (cl, bucket, key, contentType)
                   | Some _ => None
                   end
      | _ => fun _ => None
      end a
  end.

(** What the metadata store answered to an update. *)
Definition updateAnswerOf (o : Obs) : option (option error) :=
  match o with
  | existT _ c a =>
      match c return Answer c -> option (option error) with
      | DbUpdateVideo _ _ => fun a => Some a
      | _ => fun _ => None
      end a
  end.

(** The record an update was asked to write. *)
Definition updateCallOf (c : Call) : option (DBClient * Video) :=
  match c with DbUpdateVideo d v => Some (d, v) | _ => None end.

(** The directory and file name joined into the thumbnail's path. *)
Definition joinCallOf (c : Call) : option (string * string) :=
  match c with FilepathJoin dir file => Some (dir, file) | _ => None end.

(** The bucket and key a signed URL was asked for. *)
Definition presignCallOf (c : Call) : option (string * string) :=
  match c with
  | GeneratePresignedURL _ bucket key _ => Some (bucket, key)
  | _ => None
  end.

(** The last [n] elements of [l]. *)
Definition lastn {A : Type} (n : nat) (l : list A) : list A :=
  skipn (length l - n) l.

(** How many elements of [l] satisfy [p]. *)
Definition countb {A : Type} (p : A -> bool) (l : list A) : nat :=
  length (filter p l).

(** The access token is refused. *)
Definition withRefusedToken (env : Env) : Env :=
  fun c =>
    match c as c0 return Answer c0 with
    | AuthValidateJWT _ _ => (0%N, Some "token is expired")
    | c0 => env c0
    end.

(** [GetVideo] returns an error. *)
Definition withFailingLookup (env : Env) : Env :=
  fun c =>
    match c as c0 return Answer c0 with
    | DbGetVideo _ _ => (zeroVideo, Some "database is locked")
    | c0 => env c0
    end.

(** Alice uploads a thumbnail for her video. *)
Definition ownerThumbnailRun : Trace * Outcome Response :=
  run (deployment alice (holiday None) "image/png" ("", None))
      (handlerUploadThumbnail tubelyCfg uploadRequest).

(** Uploads with a token that is refused. *)
Definition refusedUploadRun : Trace * Outcome Response :=
  run (withRefusedToken (deployment alice (holiday None) "video/mp4" ("", None)))
      (handlerUploadVideo tubelyCfg uploadRequest).

Definition refusedThumbnailRun : Trace * Outcome Response :=
  run (withRefusedToken (deployment alice (holiday None) "image/png" ("", None)))
      (handlerUploadThumbnail tubelyCfg uploadRequest).

(** An upload whose part declares no parsable media type. *)
Definition withBadMediaType (env : Env) : Env :=
  fun c =>
    match c as c0 return Answer c0 with
    | MimeParseMediaType _ => ("", [], Some "mime: no media type")
    | c0 => env c0
    end.

Definition badMediaTypeUploadRun : Trace * Outcome Response :=
  run (withBadMediaType (deployment alice (holiday None) "" ("", None)))
      (handlerUploadVideo tubelyCfg uploadRequest).

(** An upload during which [GetVideo] returns an error. *)
Definition failingLookupUploadRun : Trace * Outcome Response :=
  run (withFailingLookup (deployment alice (holiday None) "video/mp4" ("", None)))
      (handlerUploadVideo tubelyCfg uploadRequest).

(** The path [filepath.Join] answered. *)
Definition joinedPathOf (o : Obs) : option string :=
  match o with
  | existT _ c a =>
      match c return Answer c -> option string with
      | FilepathJoin _ _ => fun a => Some a
      | _ => fun _ => None
      end a
  end.

(** The path [filepath.Base] was asked about, with the base name it
    answered. *)
Definition baseNameOf (o : Obs) : option (string * string) :=
  match o with
  | existT _ c a =>
      match c return Answer c -> option (string * string) with
      | FilepathBase path => fun a => Some (path, a)
      | _ => fun _ => None
      end a
  end.

(** The name [os.Create] was asked to create. *)
Definition createCallOf (c : Call) : option string :=
  match c with OsCreate name => Some name | _ => None end.

Definition isRequestFormFile (c : Call) : bool :=
  match c with RequestFormFile _ => true | _ => false end.

Definition isOsCreateTemp (c : Call) : bool :=
  match c with OsCreateTemp _ _ => true | _ => false end.




(** A reference whose key contains a comma, with the bucket [mybucket]
    configured. *)
Definition commaKeyReference : string := "mybucket,a,b.mp4".

Definition commaKeyResolveRun : Trace * Outcome (Video * option error) :=
  run (deployment alice (holiday None) "video/mp4" (signedHoliday, None))
      (dbVideoToSignedVideo mybucketCfg (holiday (Some commaKeyReference))).

(** ** The aspect ratio probe ([handler_upload_video.go]) *)

(** [FFProbeStream] and [FFProbeResult], the two local struct types. *)
Record FFProbeStream : Type := mkFFProbeStream { Width : Z; Height : Z }.
Record FFProbeResult : Type := mkFFProbeResult { Streams : list FFProbeStream }.

(** What [getVideoAspectRatio] gets from outside: the run of the command
    (the bytes written to its standard output and the error of [cmd.Run]),
    and [json.Unmarshal] into an [FFProbeResult]. *)
Record Probe : Type := mkProbe {
  cmd_Run : list string -> list Byte.byte * option error;
  json_Unmarshal : list Byte.byte -> FFProbeResult * option error
}.

(** [big.NewRat(a, b)]: the fraction a/b, with a positive denominator; it
    panics when [b] is 0. *)
Definition big_NewRat (a b : Z) : option Q :=
  if (b =? 0)%Z then None
  else if (0 <? b)%Z then Some (a # Z.to_pos b)
  else Some ((- a) # Z.to_pos (- b)).

(** [x.Cmp(y) == 0] *)
Definition Rat_Cmp_is_0 (x y : Q) : bool :=
  match Qcompare x y with Eq => true | _ => false end.

Import PrimFloat.

(** [float64(n)] of an [int] (64 bits): the nearest binary64 value. *)
Definition float64 (n : Z) : PrimFloat.float :=
  if (n =? - 2 ^ 63)%Z then (-0x1p63)%float
  else if (n <? 0)%Z
       then PrimFloat.opp (PrimFloat.of_uint63 (Uint63.of_Z (- n)))
       else PrimFloat.of_uint63 (Uint63.of_Z n).

#[local] Set Warnings "-inexact-float".

(** [float64(width)/float64(height) > 1.7 && ... < 1.78] *)
Definition nearSixteenNine (width height : Z) : bool :=
  PrimFloat.ltb 1.7%float (PrimFloat.div (float64 width) (float64 height))
  && PrimFloat.ltb (PrimFloat.div (float64 width) (float64 height))
                   1.78%float.

(** [float64(width)/float64(height) < 0.6 && ... > 0.5] *)
Definition nearNineSixteen (width height : Z) : bool :=
  PrimFloat.ltb (PrimFloat.div (float64 width) (float64 height)) 0.6%float
  && PrimFloat.ltb 0.5%float
                   (PrimFloat.div (float64 width) (float64 height)).

#[local] Set Warnings "+inexact-float".

(** A call that panics when it has no value to give. *)
Definition orPanic {A R : Type} (x : option A) (msg : string)
    (k : A -> Outcome R) : Outcome R :=
  match x with Some a => k a | None => Panicked msg end.

(** The command line of [exec.Command]. *)
Definition ffprobeArgs (filePath : string) : list string :=
  ["ffprobe"; "-v"; "error"; "-print_format"; "json"; "-show_streams";
   filePath].

(** [getVideoAspectRatio]. *)
Definition getVideoAspectRatio (sys : Probe) (filePath : string)
    : Outcome (string * option error) :=
  let (out, err) := cmd_Run sys (ffprobeArgs filePath) in
  match err with
  | Some e => Returned ("", Some ("failed to run ffprobe: " ++ e))
  | None =>
  let (result, err) := json_Unmarshal sys out in
  match err with
  | Some e => Returned ("", Some ("failed to unmarshal ffprobe output: " ++ e))
  | None =>
  if (length (Streams result) =? 0)%nat
  then Returned ("", Some "no video streams found") else
  orPanic (nth_error (Streams result) 0) "index out of range" (fun s0 =>
  let width := Width s0 in
  let height := Height s0 in
  if ((width =? 0) || (height =? 0))%Z
  then Returned ("", Some "invalid video dimensions") else
  orPanic (big_NewRat width height) "division by zero" (fun ratio =>
  orPanic (big_NewRat 16 9) "division by zero" (fun sixteenNine =>
  orPanic (big_NewRat 9 16) "division by zero" (fun nineSixteen =>
  if Rat_Cmp_is_0 ratio sixteenNine then Returned ("16:9", None)
  else if Rat_Cmp_is_0 ratio nineSixteen then Returned ("9:16", None)
  else if nearSixteenNine width height then Returned ("16:9", None)
  else if nearNineSixteen width height then Returned ("9:16", None)
  else Returned ("other", None)))))
  end
  end.

(** A probe of a file with the given streams. *)
Definition probeOf (streams : list FFProbeStream) : Probe :=
  mkProbe (fun _ => ([], None)) (fun _ => (mkFFProbeResult streams, None)).

(** ** Start-up ([main.go]) *)

(** The handlers [main] registers. *)
Inductive Handler : Type :=
| AppFiles | AssetFiles
| HandlerLogin | HandlerRefresh | HandlerRevoke | HandlerUsersCreate
| HandlerVideoMetaCreate | HandlerUploadThumbnail | HandlerUploadVideo
| HandlerVideosRetrieve | HandlerVideoGet | HandlerVideoMetaDelete
| HandlerReset.

(** What [main] gets from outside: the environment variables as they stand
    after [godotenv.Load], the database constructor, the loader of the AWS
    configuration for a region with the S3 client made of it, and
    [ensureAssetsDir]. *)
Record Startup : Type := mkStartup {
  Getenv : string -> string;
  database_NewClient : string -> DBClient * option error;
  LoadDefaultConfig_NewFromConfig : string -> S3Client * option error;
  ensureAssetsDir : apiConfig -> option error
}.

(** [main] ends in [log.Fatal], either at once or when the server it has
    started stops. *)
Inductive MainOutcome : Type :=
| Fatal (msg : string)
| Serving (cfg : apiConfig) (addr : string)
    (routes : list (string * Handler)).

Definition isEmpty (s : string) : bool := String.eqb s "".

Definition main (sys : Startup) : MainOutcome :=
  let pathToDB := Getenv sys "DB_PATH" in
  if isEmpty pathToDB then Fatal "DB_URL must be set" else
  let (db, err) := database_NewClient sys pathToDB in
  match err with
  | Some e => Fatal ("Couldn't connect to database: " ++ e)
  | None =>
  let jwtSecret := Getenv sys "JWT_SECRET" in
  if isEmpty jwtSecret
  then Fatal "JWT_SECRET environment variable is not set" else
  let platform := Getenv sys "PLATFORM" in
  if isEmpty platform
  then Fatal "PLATFORM environment variable is not set" else
  let filepathRoot := Getenv sys "FILEPATH_ROOT" in
  if isEmpty filepathRoot
  then Fatal "FILEPATH_ROOT environment variable is not set" else
  let assetsRoot := Getenv sys "ASSETS_ROOT" in
  if isEmpty assetsRoot
  then Fatal "ASSETS_ROOT environment variable is not set" else
  let s3Bucket := Getenv sys "S3_BUCKET" in
  if isEmpty s3Bucket
  then Fatal "S3_BUCKET environment variable is not set" else
  let s3Region := Getenv sys "S3_REGION" in
  if isEmpty s3Region
  then Fatal "S3_REGION environment variable is not set" else
  let s3CfDistribution := Getenv sys "S3_CF_DISTRO" in
  if isEmpty s3CfDistribution
  then Fatal "S3_CF_DISTRO environment variable is not set" else
  let port := Getenv sys "PORT" in
  if isEmpty port
  then Fatal "PORT environment variable is not set" else
  let (s3Client, err) := LoadDefaultConfig_NewFromConfig sys s3Region in
  match err with
  | Some e => Fatal ("unable to load SDK config, " ++ e)
  | None =>
  let cfg := mkApiConfig db jwtSecret platform filepathRoot assetsRoot
                         s3Bucket s3Region s3CfDistribution port s3Client in
  match ensureAssetsDir sys cfg with
  | Some e => Fatal ("Couldn't create assets directory: " ++ e)
  | None =>
  Serving cfg (":" ++ port)
    [ ("/app/", AppFiles);
      ("/assets/", AssetFiles);
      ("POST /api/login", HandlerLogin);
      ("POST /api/refresh", HandlerRefresh);
      ("POST /api/revoke", HandlerRevoke);
      ("POST /api/users", HandlerUsersCreate);
      ("POST /api/videos", HandlerVideoMetaCreate);
      ("POST /api/thumbnail_upload/{videoID}", HandlerUploadThumbnail);
      ("POST /api/video_upload/{videoID}", HandlerUploadVideo);
      ("GET /api/videos", HandlerVideosRetrieve);
      ("GET /api/videos/{videoID}", HandlerVideoGet);
      ("DELETE /api/videos/{videoID}", HandlerVideoMetaDelete);
      ("POST /admin/reset", HandlerReset) ]
  end
  end
  end.

(** The environment of the reference deployment. *)
Definition tubelyEnv (name : string) : string :=
  if String.eqb name "DB_PATH" then "./tubely.db"
  else if String.eqb name "JWT_SECRET" then "jwt-secret"
  else if String.eqb name "PLATFORM" then "dev"
  else if String.eqb name "FILEPATH_ROOT" then "/srv/tubely/app"
  else if String.eqb name "ASSETS_ROOT" then "/srv/tubely/assets"
  else if String.eqb name "S3_BUCKET" then "tubely-private"
  else if String.eqb name "S3_REGION" then "us-east-1"
  else if String.eqb name "S3_CF_DISTRO" then "d111.cloudfront.net"
  else if String.eqb name "PORT" then "8091"
  else "".

Definition tubelyStartup : Startup :=
  mkStartup tubelyEnv (fun _ => (1%N, None)) (fun _ => (1%N, None))
            (fun _ => None).

(** The error [io.Copy] reported. *)
Definition copyErrorOf (o : Obs) : option error :=
  match o with
  | existT _ c a =>
      match c return Answer c -> option error with
      | IoCopy _ _ => fun a => snd a
      | _ => fun _ => None
      end a
  end.

Definition isRandRead (c : Call) : bool :=
  match c with RandRead _ => true | _ => false end.

Definition isDbGetVideo (c : Call) : bool :=
  match c with DbGetVideo _ _ => true | _ => false end.

(** The copy of the upload to disk fails. *)
Definition withFailingCopy (env : Env) : Env :=
  fun c =>
    match c as c0 return Answer c0 with
    | IoCopy _ _ => (0%Z, Some "write: no space left on device")
    | c0 => env c0
    end.

Definition failingCopyUploadRun : Trace * Outcome Response :=
  run (withFailingCopy (deployment alice (holiday None) "video/mp4" ("", None)))
      (handlerUploadVideo tubelyCfg uploadRequest).

Definition failingCopyThumbnailRun : Trace * Outcome Response :=
  run (withFailingCopy (deployment alice (holiday None) "image/png" ("", None)))
      (handlerUploadThumbnail tubelyCfg uploadRequest).

(** ** Runs: every program has one against each environment *)

Lemma run_runs {R : Type} (env : Env) (p : Prog R) :
  runs p (fst (run env p)) (snd (run env p)).
Proof.
  induction p as [r | msg | c k IH]; simpl; auto.
  specialize (IH (env c)).
  destruct (run env (k (env c))) as [t o]; simpl in *.
  exists (env c), t; auto.
Qed.

Lemma run_eq_runs {R : Type} (env : Env) (p : Prog R) t o :
  run env p = (t, o) -> runs p t o.
Proof.
  intros E. pose proof (run_runs env p) as H. rewrite E in H. exact H.
Qed.

(** ** Splitting a reference that passed the prefix check *)

Lemma strings_Split_nonempty (s : string) (sep : ascii) :
  strings_Split s sep <> [].
Proof.
  destruct s as [| a s]; simpl; [discriminate |].
  destruct (Ascii.eqb a sep); [discriminate |].
  destruct (strings_Split s sep); discriminate.
Qed.

Lemma strings_Split_cons_length (a : ascii) (s : string) (sep : ascii) :
  (length (strings_Split s sep) <= length (strings_Split (String a s) sep))%nat.
Proof.
  simpl. destruct (Ascii.eqb a sep); simpl; [lia |].
  destruct (strings_Split s sep) eqn:E; simpl; lia.
Qed.

Lemma strings_Split_after_separator (pre s : string) (sep : ascii) :
  String.prefix (pre ++ String sep EmptyString) s = true ->
  (2 <= length (strings_Split s sep))%nat.
Proof.
  revert s. induction pre as [| a pre IH]; intros s Hp.
  - destruct s as [| b s]; simpl in Hp; [discriminate |].
    destruct (ascii_dec sep b) as [<- |]; [| discriminate].
    simpl. rewrite Ascii.eqb_refl. simpl.
    pose proof (strings_Split_nonempty s sep).
    destruct (strings_Split s sep); simpl; [congruence | lia].
  - destruct s as [| b s]; simpl in Hp; [discriminate |].
    destruct (ascii_dec a b); [| discriminate].
    specialize (IH s Hp).
    pose proof (strings_Split_cons_length b s sep). lia.
Qed.

Lemma split_reference (cfg : apiConfig) (url : string) :
  strings_HasPrefix url (s3Bucket cfg ++ ",") = true ->
  exists b k rest, strings_Split url comma = b :: k :: rest.
Proof.
  intros Hp.
  pose proof (strings_Split_after_separator (s3Bucket cfg) url comma Hp) as Hl.
  destruct (strings_Split url comma) as [| b [| k rest]]; simpl in Hl;
    try lia.
  now exists b, k, rest.
Qed.

(** What [dbVideoToSignedVideo] is once the prefix check has passed. *)
Lemma resolve_signing_branch (cfg : apiConfig) (video : Video)
    (url b k : string) (rest : list string) :
  VideoURL video = Some url ->
  strings_HasPrefix url (s3Bucket cfg ++ ",") = true ->
  strings_Split url comma = b :: k :: rest ->
  dbVideoToSignedVideo cfg video =
  Vis (GeneratePresignedURL (s3Client cfg) b k presignExpiry)
      (fun a => let (signedURL, err) := a in
                if notNil err then Ret (zeroVideo, err)
                else Ret (setVideoURL video (Some signedURL), None)).
Proof.
  intros Hu Hp Hs. unfold dbVideoToSignedVideo.
  rewrite Hu, Hp, Hs. reflexivity.
Qed.

(** C3. A video whose media reference is absent, or does not begin with the
    configured bucket name followed by a comma, is returned by the resolver
    exactly as it came, with a nil error and without any call. *)
Theorem resolve_leaves_foreign_reference (cfg : apiConfig) (video : Video) :
  (VideoURL video = None \/
   exists url, VideoURL video = Some url /\
               strings_HasPrefix url (s3Bucket cfg ++ ",") = false) ->
  dbVideoToSignedVideo cfg video = Ret (video, None) /\
  forall t o, runs (dbVideoToSignedVideo cfg video) t o ->
              t = [] /\ o = Returned (video, None).
Proof.
  intros H.
  assert (E : dbVideoToSignedVideo cfg video = Ret (video, None)).
  { unfold dbVideoToSignedVideo.
    destruct H as [-> | (url & -> & ->)]; reflexivity. }
  split; [exact E |].
  intros t o Hr. rewrite E in Hr. exact Hr.
Qed.

Lemma resolve_leaves_foreign_reference_witness :
  (dbVideoToSignedVideo tubelyCfg (holiday None) = Ret (holiday None, None) /\
   forall t o, runs (dbVideoToSignedVideo tubelyCfg (holiday None)) t o ->
               t = [] /\ o = Returned (holiday None, None)) /\
  (dbVideoToSignedVideo tubelyCfg (holiday (Some rawReference))
   = Ret (holiday (Some rawReference), None) /\
   forall t o,
     runs (dbVideoToSignedVideo tubelyCfg (holiday (Some rawReference))) t o ->
     t = [] /\ o = Returned (holiday (Some rawReference), None)).
Proof.
  split.
  - apply (resolve_leaves_foreign_reference tubelyCfg (holiday None)).
    left. reflexivity.
  - apply (resolve_leaves_foreign_reference tubelyCfg
             (holiday (Some rawReference))).
    right. exists rawReference. split; reflexivity.
Defined.

(** C9. Once the stored reference has passed the prefix check, splitting it
    on commas yields at least two fields, so the reads at index 0 and at
    index 1 are in bounds and no run of the resolver panics. *)
Theorem resolve_split_in_bounds (cfg : apiConfig) (video : Video)
    (url : string) :
  VideoURL video = Some url ->
  strings_HasPrefix url (s3Bucket cfg ++ ",") = true ->
  (2 <= length (strings_Split url comma))%nat /\
  (exists b k, nth_error (strings_Split url comma) 0 = Some b /\
               nth_error (strings_Split url comma) 1 = Some k) /\
  forall t o, runs (dbVideoToSignedVideo cfg video) t o ->
              exists r, o = Returned r.
Proof.
  intros Hu Hp.
  split; [exact (strings_Split_after_separator (s3Bucket cfg) url comma Hp) |].
  destruct (split_reference cfg url Hp) as (b & k & rest & Hs).
  split; [exists b, k; rewrite Hs; split; reflexivity |].
  intros t o Hr.
  rewrite (resolve_signing_branch cfg video url b k rest Hu Hp Hs) in Hr.
  simpl in Hr. destruct Hr as ([signedURL err] & t' & _ & Hr).
  destruct err; simpl in Hr; destruct Hr as [_ ->]; eauto.
Qed.

Lemma resolve_split_in_bounds_witness :
  (2 <= length (strings_Split rawReference comma))%nat /\
  (exists b k, nth_error (strings_Split rawReference comma) 0 = Some b /\
               nth_error (strings_Split rawReference comma) 1 = Some k) /\
  forall t o,
    runs (dbVideoToSignedVideo mybucketCfg (holiday (Some rawReference))) t o ->
    exists r, o = Returned r.
Proof.
  apply (resolve_split_in_bounds mybucketCfg (holiday (Some rawReference))
           rawReference); reflexivity.
Defined.

(** C4. For a reference that begins with the configured bucket name and a
    comma, a successful resolve has asked the presigner once, for the first
    and the second field of the split reference, and returns the video with
    the media reference replaced by the signed URL and every other field as
    it was. *)
Theorem resolve_replaces_only_media_reference (cfg : apiConfig)
    (video : Video) (url : string) (t : Trace) (v' : Video) :
  VideoURL video = Some url ->
  strings_HasPrefix url (s3Bucket cfg ++ ",") = true ->
  runs (dbVideoToSignedVideo cfg video) t (Returned (v', None)) ->
  exists b k signedURL,
    nth_error (strings_Split url comma) 0 = Some b /\
    nth_error (strings_Split url comma) 1 = Some k /\
    t = [obs (GeneratePresignedURL (s3Client cfg) b k presignExpiry)
             (signedURL, None)] /\
    VideoURL v' = Some signedURL /\
    ID v' = ID video /\ CreatedAt v' = CreatedAt video /\
    UpdatedAt v' = UpdatedAt video /\ ThumbnailURL v' = ThumbnailURL video /\
    Title v' = Title video /\ Description v' = Description video /\
    UserID v' = UserID video.
Proof.
  intros Hu Hp Hr.
  destruct (split_reference cfg url Hp) as (b & k & rest & Hs).
  rewrite (resolve_signing_branch cfg video url b k rest Hu Hp Hs) in Hr.
  simpl in Hr. destruct Hr as ([signedURL err] & t' & -> & Hr).
  destruct err as [e |]; simpl in Hr; destruct Hr as [-> Ho].
  - discriminate Ho.
  - injection Ho as ->. exists b, k, signedURL. rewrite Hs.
    repeat split; reflexivity.
Qed.

Lemma resolve_replaces_only_media_reference_witness :
  exists b k signedURL,
    nth_error (strings_Split rawReference comma) 0 = Some b /\
    nth_error (strings_Split rawReference comma) 1 = Some k /\
    fst signedResolveRun =
      [obs (GeneratePresignedURL (s3Client mybucketCfg) b k presignExpiry)
           (signedURL, None)] /\
    VideoURL (setVideoURL (holiday (Some rawReference)) (Some signedHoliday))
    = Some signedURL /\
    ID (setVideoURL (holiday (Some rawReference)) (Some signedHoliday))
    = ID (holiday (Some rawReference)) /\
    CreatedAt (setVideoURL (holiday (Some rawReference)) (Some signedHoliday))
    = CreatedAt (holiday (Some rawReference)) /\
    UpdatedAt (setVideoURL (holiday (Some rawReference)) (Some signedHoliday))
    = UpdatedAt (holiday (Some rawReference)) /\
    ThumbnailURL
      (setVideoURL (holiday (Some rawReference)) (Some signedHoliday))
    = ThumbnailURL (holiday (Some rawReference)) /\
    Title (setVideoURL (holiday (Some rawReference)) (Some signedHoliday))
    = Title (holiday (Some rawReference)) /\
    Description
      (setVideoURL (holiday (Some rawReference)) (Some signedHoliday))
    = Description (holiday (Some rawReference)) /\
    UserID (setVideoURL (holiday (Some rawReference)) (Some signedHoliday))
    = UserID (holiday (Some rawReference)).
Proof.
  apply (resolve_replaces_only_media_reference mybucketCfg
           (holiday (Some rawReference)) rawReference).
  - reflexivity.
  - reflexivity.
  - apply (run_eq_runs
             (deployment alice (holiday None) "video/mp4"
                         (signedHoliday, None))).
    reflexivity.
Defined.

(** C5. For a reference that begins with the configured bucket name and a
    comma, when the presigner answers with an error the resolver returns
    that error together with the zero video: the caller is handed neither
    the unsigned reference nor any other field of the record. *)
Theorem resolve_propagates_signing_failure (cfg : apiConfig) (video : Video)
    (url : string) (t : Trace) (o : Outcome (Video * option error))
    (signedURL : string) (e : error) :
  VideoURL video = Some url ->
  strings_HasPrefix url (s3Bucket cfg ++ ",") = true ->
  runs (dbVideoToSignedVideo cfg video) t o ->
  firstSome presignAnswerOf t = Some (signedURL, Some e) ->
  o = Returned (zeroVideo, Some e) /\
  VideoURL zeroVideo = None /\
  forall v err, o = Returned (v, err) -> VideoURL v <> Some url.
Proof.
  intros Hu Hp Hr Ha.
  destruct (split_reference cfg url Hp) as (b & k & rest & Hs).
  rewrite (resolve_signing_branch cfg video url b k rest Hu Hp Hs) in Hr.
  simpl in Hr. destruct Hr as ([s err] & t' & -> & Hr).
  cbn in Ha. injection Ha as -> ->.
  simpl in Hr. destruct Hr as [-> ->].
  repeat split. intros v err Ho. injection Ho as <- _. discriminate.
Qed.

Lemma resolve_propagates_signing_failure_witness :
  snd failedResolveRun
  = Returned (zeroVideo, Some "presign: failed to sign request") /\
  VideoURL zeroVideo = None /\
  forall v err, snd failedResolveRun = Returned (v, err) ->
                VideoURL v <> Some rawReference.
Proof.
  apply (resolve_propagates_signing_failure mybucketCfg
           (holiday (Some rawReference)) rawReference
           (fst failedResolveRun) (snd failedResolveRun) "").
  - reflexivity.
  - reflexivity.
  - apply run_runs.
  - reflexivity.
Defined.

(** C7. Every signed URL the resolver asks for is asked with the expiry
    [15*60*1e9] nanoseconds, which is 900 seconds, that is 15 minutes, and
    fits a [time.Duration]; a reference that passes the prefix check leads
    to exactly one such request. *)
Theorem resolve_presign_expiry_15_minutes (cfg : apiConfig) (video : Video)
    (t : Trace) (o : Outcome (Video * option error)) :
  runs (dbVideoToSignedVideo cfg video) t o ->
  Forall (fun e => e = (900 * Second)%Z) (presignExpiries (calls t)) /\
  (forall url, VideoURL video = Some url ->
     strings_HasPrefix url (s3Bucket cfg ++ ",") = true ->
     presignExpiries (calls t) = [(900 * Second)%Z]) /\
  presignExpiry = (900 * Second)%Z /\
  presignExpiry = (15 * Minute)%Z /\
  (0 < presignExpiry <= maxInt64)%Z.
Proof.
  intros Hr.
  assert (Hc : presignExpiries (calls t) = [] \/
               presignExpiries (calls t) = [(900 * Second)%Z]).
  { unfold dbVideoToSignedVideo in Hr.
    destruct (VideoURL video) as [url |]; [| destruct Hr as [-> _]; now left].
    destruct (strings_HasPrefix url (s3Bucket cfg ++ ",")) eqn:Hp;
      [| destruct Hr as [-> _]; now left].
    destruct (split_reference cfg url Hp) as (b & k & rest & Hs).
    rewrite Hs in Hr. simpl in Hr.
    destruct Hr as ([s err] & t' & -> & Hr).
    destruct err; simpl in Hr; destruct Hr as [-> _]; right; reflexivity. }
  split; [| split; [| split; [| split]]].
  - destruct Hc as [-> | ->]; repeat constructor.
  - intros url Hu Hp.
    destruct (split_reference cfg url Hp) as (b & k & rest & Hs).
    rewrite (resolve_signing_branch cfg video url b k rest Hu Hp Hs) in Hr.
    simpl in Hr. destruct Hr as (a & t' & -> & Hr). destruct a as [s err].
    destruct err; simpl in Hr; destruct Hr as [-> _]; reflexivity.
  - reflexivity.
  - reflexivity.
  - unfold presignExpiry, maxInt64. lia.
Qed.

Lemma resolve_presign_expiry_15_minutes_witness :
  Forall (fun e => e = (900 * Second)%Z)
         (presignExpiries (calls (fst signedResolveRun))) /\
  (forall url, VideoURL (holiday (Some rawReference)) = Some url ->
     strings_HasPrefix url (s3Bucket mybucketCfg ++ ",") = true ->
     presignExpiries (calls (fst signedResolveRun)) = [(900 * Second)%Z]) /\
  presignExpiry = (900 * Second)%Z /\
  presignExpiry = (15 * Minute)%Z /\
  (0 < presignExpiry <= maxInt64)%Z.
Proof.
  apply (resolve_presign_expiry_15_minutes mybucketCfg
           (holiday (Some rawReference)) (fst signedResolveRun)
           (snd signedResolveRun)).
  apply run_runs.
Defined.

(** ** What a URL spells out *)









(** ** The resolver on the reference ["mybucket,abc123.mp4"] *)







(** ** Walking through the runs of a program *)

#[local] Arguments uuid_String : simpl never.
#[local] Arguments String.append : simpl never.

Ltac walk H :=
  repeat first
    [ destruct H as (? & ? & -> & H)
    | destruct H as [-> ->]
    | progress cbn in H
    | match type of H with
      | context [notNil ?e] => destruct e
      end
    | match type of H with
      | context [match ?x with pair _ _ => _ end] => destruct x
      end
    | match type of H with
      | context [if ?b then _ else _] => destruct b eqn:?
      end ].

(** C10. When the media type parsed from the part's Content-Type is
    anything but ["video/mp4"], [handlerUploadVideo] answers 415
    Unsupported Media Type and has issued no object-store write, no database
    update and no other lasting change. *)
Theorem upload_rejects_other_media_types (cfg : apiConfig) (r : Request)
    (t : Trace) (o : Outcome Response) (mt : string) :
  runs (handlerUploadVideo cfg r) t o ->
  firstSome parsedMediaTypeOf t = Some mt ->
  mt <> "video/mp4" ->
  o = Returned (mkResponse StatusUnsupportedMediaType
                  (ErrorPayload "Unsupported video format" None)) /\
  existsb isS3PutObject (calls t) = false /\
  existsb isDbUpdateVideo (calls t) = false /\
  existsb mutates (calls t) = false.
Proof.
  intros Hr Hmt Hne. unfold handlerUploadVideo in Hr.
  walk Hr; cbn in Hmt; try discriminate; injection Hmt as <-.
  all: try match goal with
           | E : String.eqb _ _ = true |- _ =>
               apply String.eqb_eq in E; contradiction
           end.
  repeat split; reflexivity.
Qed.

Lemma upload_rejects_other_media_types_witness :
  snd webmUploadRun
  = Returned (mkResponse StatusUnsupportedMediaType
                (ErrorPayload "Unsupported video format" None)) /\
  existsb isS3PutObject (calls (fst webmUploadRun)) = false /\
  existsb isDbUpdateVideo (calls (fst webmUploadRun)) = false /\
  existsb mutates (calls (fst webmUploadRun)) = false.
Proof.
  apply (upload_rejects_other_media_types tubelyCfg uploadRequest
           (fst webmUploadRun) (snd webmUploadRun) "video/webm").
  - apply run_runs.
  - reflexivity.
  - discriminate.
Defined.

(** ** The ownership guard of the two upload handlers *)

Lemma uuid_neq_true (a b : UUID) : uuid_neq a b = true <-> a <> b.
Proof.
  unfold uuid_neq. rewrite negb_true_iff. apply N.eqb_neq.
Qed.

Lemma uuid_neq_false (a b : UUID) : uuid_neq a b = false <-> a = b.
Proof.
  unfold uuid_neq. rewrite negb_false_iff. apply N.eqb_eq.
Qed.

Ltac owner_cases :=
  repeat match goal with
         | E : uuid_neq _ _ = true |- _ => apply uuid_neq_true in E
         | E : uuid_neq _ _ = false |- _ => apply uuid_neq_false in E
         end.

(** [handlerUploadVideo]: a valid token of somebody who does not own the
    video is answered 404, and nothing lasting has been touched by then. *)
Lemma upload_video_wrong_owner (cfg : apiConfig) (r : Request)
    (t : Trace) (o : Outcome Response) (uid : UUID) (v : Video) :
  runs (handlerUploadVideo cfg r) t o ->
  firstSome validatedUserOf t = Some uid ->
  firstSome fetchedVideoOf t = Some v ->
  UserID v <> uid ->
  o = Returned (mkResponse StatusNotFound
                  (ErrorPayload "Video not found" None)) /\
  existsb mutates (calls t) = false.
Proof.
  intros Hr Hu Hv Hne. unfold handlerUploadVideo in Hr.
  walk Hr; cbn in Hu, Hv; try discriminate;
    injection Hu as <-; injection Hv as <-; owner_cases;
    try contradiction.
  split; reflexivity.
Qed.

(** [handlerUploadVideo]: the owner passes the guard; the handler goes on
    to read the uploaded part and never answers 404. *)
Lemma upload_video_owner_passes (cfg : apiConfig) (r : Request)
    (t : Trace) (o : Outcome Response) (uid : UUID) (v : Video) :
  runs (handlerUploadVideo cfg r) t o ->
  firstSome validatedUserOf t = Some uid ->
  firstSome fetchedVideoOf t = Some v ->
  UserID v = uid ->
  In (RequestFormFile "video") (calls t) /\
  exists resp, o = Returned resp /\ status resp <> StatusNotFound.
Proof.
  intros Hr Hu Hv He. unfold handlerUploadVideo in Hr.
  walk Hr; cbn in Hu, Hv; try discriminate;
    injection Hu as <-; injection Hv as <-; owner_cases;
    try contradiction.
  all: split; [cbn; tauto | eexists; split; [reflexivity | discriminate]].
Qed.

(** [handlerUploadThumbnail]: the same mismatch is answered 401, and by
    then the handler has created the thumbnail file and copied the upload
    into it. *)
Lemma upload_thumbnail_wrong_owner (cfg : apiConfig) (r : Request)
    (t : Trace) (o : Outcome Response) (uid : UUID) (v : Video) :
  runs (handlerUploadThumbnail cfg r) t o ->
  firstSome validatedUserOf t = Some uid ->
  firstSome fetchedVideoOf t = Some v ->
  UserID v <> uid ->
  o = Returned (mkResponse StatusUnauthorized
                  (ErrorPayload "Unauthorized" None)) /\
  existsb mutates (calls t) = true /\
  exists path newFile file,
    In (OsCreate path) (calls t) /\ In (IoCopy newFile file) (calls t).
Proof.
  intros Hr Hu Hv Hne. unfold handlerUploadThumbnail in Hr.
  walk Hr; cbn in Hu, Hv; try discriminate;
    injection Hu as <-; try injection Hv as <-; try discriminate;
    owner_cases; try contradiction.
  repeat split; try reflexivity.
  do 3 eexists. split; cbn; eauto 20.
Qed.

(** [handlerUploadThumbnail]: the owner passes the guard. *)
Lemma upload_thumbnail_owner_passes (cfg : apiConfig) (r : Request)
    (t : Trace) (o : Outcome Response) (uid : UUID) (v : Video) :
  runs (handlerUploadThumbnail cfg r) t o ->
  firstSome validatedUserOf t = Some uid ->
  firstSome fetchedVideoOf t = Some v ->
  UserID v = uid ->
  (exists v', In (DbUpdateVideo (db cfg) v') (calls t)) /\
  exists resp, o = Returned resp /\ status resp <> StatusUnauthorized /\
               status resp <> StatusNotFound.
Proof.
  intros Hr Hu Hv He. unfold handlerUploadThumbnail in Hr.
  walk Hr; cbn in Hu, Hv; try discriminate;
    injection Hu as <-; try injection Hv as <-; try discriminate;
    owner_cases; try contradiction.
  all: split; [eexists; cbn; eauto 20
              | eexists; split; [reflexivity | split; discriminate]].
Qed.

(** C2, on the failing input. Bob presents a valid token of his own and
    uploads a thumbnail for Alice's video: [handlerUploadThumbnail] answers
    401 Unauthorized, not 404 Not Found. *)
Theorem thumbnail_wrong_owner_is_401 :
  firstSome validatedUserOf (fst intruderThumbnailRun) = Some bob /\
  firstSome fetchedVideoOf (fst intruderThumbnailRun) = Some (holiday None) /\
  UserID (holiday None) = alice /\
  uuid_neq alice bob = true /\
  snd intruderThumbnailRun
  = Returned (mkResponse 401 (ErrorPayload "Unauthorized" None)) /\
  snd intruderUploadRun
  = Returned (mkResponse 404 (ErrorPayload "Video not found" None)).
Proof. repeat split. Qed.

(** C8, on the failing input. In the same request the thumbnail handler has
    created the file of Alice's thumbnail and copied Bob's upload into it
    before it fetches the video and compares the owner; the media upload
    handler on the same request has changed nothing. *)
Theorem thumbnail_written_before_ownership_check :
  calls (fst intruderThumbnailRun)
  = [ UuidParse "00000000-0000-0000-0000-000000000007";
      AuthGetBearerToken [("Authorization", ["Bearer eyJhbGciOi.e30.c2ln"])];
      AuthValidateJWT "eyJhbGciOi.e30.c2ln" "jwt-secret";
      FmtPrint ("uploading thumbnail for video "
                ++ "00000000-0000-0000-0000-000000000007" ++ " by user "
                ++ "00000000-0000-0000-0000-000000000002" ++ newline);
      RequestFormFile "thumbnail";
      FilepathJoin "/srv/tubely/assets"
                   "00000000-0000-0000-0000-000000000007.png";
      OsCreate "/srv/tubely/assets/00000000-0000-0000-0000-000000000007.png";
      IoCopy
        (mkOsFile 5
           "/srv/tubely/assets/00000000-0000-0000-0000-000000000007.png")
        3%N;
      FilepathBase
        "/srv/tubely/assets/00000000-0000-0000-0000-000000000007.png";
      DbGetVideo 1%N holidayID;
      OsFileClose
        (mkOsFile 5
           "/srv/tubely/assets/00000000-0000-0000-0000-000000000007.png");
      MultipartFileClose 3%N ] /\
  existsb mutates (calls (fst intruderThumbnailRun)) = true /\
  snd intruderThumbnailRun
  = Returned (mkResponse StatusUnauthorized
                (ErrorPayload "Unauthorized" None)) /\
  existsb mutates (calls (fst intruderUploadRun)) = false.
Proof. repeat split. Qed.

(** ** What the client is given as the media location *)




(** ** References the resolver decodes, and references it leaves alone *)

#[local] Arguments String.append : simpl nomatch.

Lemma hasByte_app (c : ascii) (x y : string) :
  hasByte c (x ++ y) = hasByte c x || hasByte c y.
Proof.
  induction x as [| a x IH]; simpl; [reflexivity |].
  rewrite IH. apply orb_assoc.
Qed.

Lemma strings_Split_no_separator (s : string) (sep : ascii) :
  hasByte sep s = false -> strings_Split s sep = [s].
Proof.
  induction s as [| a s IH]; simpl; [reflexivity |].
  intros H. apply orb_false_iff in H. destruct H as [Ha Hs].
  rewrite Ha, (IH Hs). reflexivity.
Qed.

Lemma strings_Split_at_separator (b rest : string) (sep : ascii) :
  hasByte sep b = false ->
  strings_Split (b ++ String sep rest) sep = b :: strings_Split rest sep.
Proof.
  induction b as [| a b IH]; simpl.
  - intros _. rewrite Ascii.eqb_refl. reflexivity.
  - intros H. apply orb_false_iff in H. destruct H as [Ha Hb].
    rewrite Ha, (IH Hb). reflexivity.
Qed.

(** The first field of a split is free of the separator and is the whole
    string, or is followed in it by a separator: it is the text before the
    first separator. *)
Lemma strings_Split_head (s : string) (sep : ascii) :
  exists h t, strings_Split s sep = h :: t /\
              hasByte sep h = false /\
              ((s = h /\ t = []) \/ exists more, s = h ++ String sep more).
Proof.
  induction s as [| a s (h & t & E & Hn & Hs)]; cbn [strings_Split].
  - exists "", []. repeat split. left. split; reflexivity.
  - destruct (Ascii.eqb a sep) eqn:Ea.
    + apply Ascii.eqb_eq in Ea. subst a.
      exists "", (strings_Split s sep). repeat split.
      right. exists s. reflexivity.
    + rewrite E. exists (String a h), t. cbn [hasByte]. rewrite Ea, Hn.
      repeat split.
      destruct Hs as [[-> ->] | (more & ->)];
        [left; split; reflexivity | right; exists more; reflexivity].
Qed.

(** No string of the form [p ++ b ++ rest], with [p] not empty and free of
    commas, begins with [b] followed by a comma. *)
Lemma prefix_behind_scheme (b p rest : string) :
  p <> "" -> hasByte comma p = false ->
  String.prefix (b ++ ",") (p ++ b ++ rest) = false.
Proof.
  revert p. induction b as [| a b IH]; intros p Hne Hp.
  - destruct p as [| c p]; [congruence |].
    cbn [String.prefix append hasByte] in *.
    apply orb_false_iff in Hp. destruct Hp as [Hc _].
    destruct (ascii_dec "," c) as [<- |]; [discriminate Hc | reflexivity].
  - destruct p as [| c p]; [congruence |].
    cbn [String.prefix append hasByte] in *.
    destruct (ascii_dec a c) as [-> |]; [| reflexivity].
    apply orb_false_iff in Hp. destruct Hp as [Hc Hp].
    replace (p ++ String c (b ++ rest))
      with ((p ++ String c "") ++ b ++ rest).
    + apply IH.
      * destruct p; discriminate.
      * rewrite hasByte_app. cbn [hasByte]. rewrite Hp, Hc. reflexivity.
    + clear. induction p as [| x p IHp]; cbn [append]; [reflexivity |].
      now rewrite IHp.
Qed.

Lemma permanentURL_fails_prefix_check (cfg : apiConfig) (key : string) :
  strings_HasPrefix (permanentURL cfg key) (s3Bucket cfg ++ ",") = false.
Proof.
  unfold strings_HasPrefix, permanentURL.
  apply prefix_behind_scheme; [discriminate | reflexivity].
Qed.

(** X1. With a bucket name free of commas, a stored reference
    [<bucket>,<rest>] makes the resolver ask the presigner for exactly the
    configured bucket and for the text of [rest] before its first comma:
    the whole of [rest] when it has none, and otherwise a key cut off at
    that comma. *)
Theorem resolve_decodes_reference (cfg : apiConfig) (video : Video)
    (rest : string) (t : Trace) (o : Outcome (Video * option error)) :
  hasByte comma (s3Bucket cfg) = false ->
  VideoURL video = Some (s3Bucket cfg ++ "," ++ rest) ->
  runs (dbVideoToSignedVideo cfg video) t o ->
  exists key,
    map presignCallOf (calls t) = [Some (s3Bucket cfg, key)] /\
    hasByte comma key = false /\
    (rest = key \/ exists more, rest = key ++ "," ++ more).
Proof.
  intros Hb Hu Hr.
  destruct (strings_Split_head rest comma) as (key & more & Es & Hn & Hs).
  assert (E : strings_Split (s3Bucket cfg ++ "," ++ rest) comma
              = s3Bucket cfg :: key :: more).
  { change ("," ++ rest) with (String comma rest).
    rewrite strings_Split_at_separator by exact Hb. now rewrite Es. }
  assert (Hpre : strings_HasPrefix (s3Bucket cfg ++ "," ++ rest)
                                   (s3Bucket cfg ++ ",") = true).
  { unfold strings_HasPrefix. clear.
    induction (s3Bucket cfg) as [| a b IH]; cbn [String.prefix append].
    - destruct (ascii_dec "," ","); [| congruence]. now destruct rest.
    - destruct (ascii_dec a a); [exact IH | congruence]. }
  rewrite (resolve_signing_branch cfg video _ _ _ _ Hu Hpre E) in Hr.
  simpl in Hr. destruct Hr as ([signedURL err] & t' & -> & Hr).
  exists key.
  assert (Hk : rest = key \/ exists more', rest = key ++ "," ++ more').
  { destruct Hs as [[-> _] | (more' & ->)];
      [left; reflexivity | right; exists more'; reflexivity]. }
  destruct err; simpl in Hr; destruct Hr as [-> _];
    repeat split; assumption.
Qed.

Lemma resolve_decodes_reference_witness :
  (exists key,
     map presignCallOf (calls (fst commaKeyResolveRun))
     = [Some (s3Bucket mybucketCfg, key)] /\
     hasByte comma key = false /\
     ("a,b.mp4" = key \/ exists more, "a,b.mp4" = key ++ "," ++ more)) /\
  (exists key,
     map presignCallOf (calls (fst signedResolveRun))
     = [Some (s3Bucket mybucketCfg, key)] /\
     hasByte comma key = false /\
     ("abc123.mp4" = key \/ exists more, "abc123.mp4" = key ++ "," ++ more)).
Proof.
  split.
  - apply (resolve_decodes_reference mybucketCfg
             (holiday (Some commaKeyReference)) "a,b.mp4"
             (fst commaKeyResolveRun) (snd commaKeyResolveRun)).
    + reflexivity.
    + reflexivity.
    + apply run_runs.
  - apply (resolve_decodes_reference mybucketCfg
             (holiday (Some rawReference)) "abc123.mp4"
             (fst signedResolveRun) (snd signedResolveRun)).
    + reflexivity.
    + reflexivity.
    + apply run_runs.
Defined.

(** X2. Whatever the video and the configuration, the resolver makes at
    most one call, a presigning request, and so changes neither the metadata
    store nor any file or object: the signed form is never written back. *)
Theorem resolve_only_asks_presigner (cfg : apiConfig) (video : Video)
    (t : Trace) (o : Outcome (Video * option error)) :
  runs (dbVideoToSignedVideo cfg video) t o ->
  (length t <= 1)%nat /\
  forallb isPresign (calls t) = true /\
  existsb mutates (calls t) = false.
Proof.
  intros Hr. unfold dbVideoToSignedVideo in Hr.
  destruct (VideoURL video) as [url |];
    [| destruct Hr as [-> _]; repeat split; simpl; lia].
  destruct (strings_HasPrefix url (s3Bucket cfg ++ ",")) eqn:Hp;
    simpl in Hr; [| destruct Hr as [-> _]; repeat split; simpl; lia].
  destruct (split_reference cfg url Hp) as (b & k & more & Es).
  rewrite Es in Hr. simpl in Hr.
  destruct Hr as ([signedURL err] & t' & -> & Hr).
  destruct err; simpl in Hr; destruct Hr as [-> _];
    repeat split; simpl; lia.
Qed.

Lemma resolve_only_asks_presigner_witness :
  (length (fst signedResolveRun) <= 1)%nat /\
  forallb isPresign (calls (fst signedResolveRun)) = true /\
  existsb mutates (calls (fst signedResolveRun)) = false.
Proof.
  apply (resolve_only_asks_presigner mybucketCfg
           (holiday (Some rawReference)) (fst signedResolveRun)
           (snd signedResolveRun)).
  apply run_runs.
Defined.

(** ** More on the upload handlers *)

#[local] Arguments String.append : simpl never.

Lemma resolve_leaves_permanentURL (cfg : apiConfig) (stored : Video)
    (key : string) :
  dbVideoToSignedVideo cfg (setVideoURL stored (Some (permanentURL cfg key)))
  = Ret (setVideoURL stored (Some (permanentURL cfg key)), None).
Proof.
  unfold dbVideoToSignedVideo. cbn [VideoURL setVideoURL].
  rewrite permanentURL_fails_prefix_check. reflexivity.
Qed.

(** X3. Whatever record [handlerUploadVideo] writes to the metadata store
    carries the permanent address of the object as its media reference, and
    the resolver returns such a record as it is, without asking for a signed
    URL: for no bucket, region or key does that address pass the prefix
    check. *)
Theorem uploaded_reference_is_never_signed (cfg : apiConfig) (r : Request)
    (t : Trace) (o : Outcome Response) (d : DBClient) (v : Video) :
  runs (handlerUploadVideo cfg r) t o ->
  firstSome updateCallOf (calls t) = Some (d, v) ->
  (exists key, VideoURL v = Some (permanentURL cfg key)) /\
  dbVideoToSignedVideo cfg v = Ret (v, None).
Proof.
  intros Hr Hc. unfold handlerUploadVideo in Hr.
  walk Hr; cbn in Hc; try discriminate; injection Hc as <- <-.
  all: split; [eexists; reflexivity | apply resolve_leaves_permanentURL].
Qed.

Lemma uploaded_reference_is_never_signed_witness :
  (exists key,
     VideoURL
       (setVideoURL (holiday None)
          (Some (permanentURL tubelyCfg (zeroKey ++ ".mp4"))))
     = Some (permanentURL tubelyCfg key)) /\
  dbVideoToSignedVideo tubelyCfg
    (setVideoURL (holiday None)
       (Some (permanentURL tubelyCfg (zeroKey ++ ".mp4"))))
  = Ret (setVideoURL (holiday None)
           (Some (permanentURL tubelyCfg (zeroKey ++ ".mp4"))), None).
Proof.
  apply (uploaded_reference_is_never_signed tubelyCfg uploadRequest
           (fst ownerUploadRun) (snd ownerUploadRun) 1%N).
  - apply run_runs.
  - reflexivity.
Defined.

(** X4. [handlerUploadVideo] serves nobody it has not identified: in a run
    in which no access token was accepted the answer is 400 or 401, and the
    handler has looked at the request's id and token only, leaving the
    metadata store, the upload, the disk and the object store untouched. *)
Theorem upload_video_requires_valid_token (cfg : apiConfig) (r : Request)
    (t : Trace) (o : Outcome Response) :
  runs (handlerUploadVideo cfg r) t o ->
  firstSome validatedUserOf t = None ->
  (exists msg err,
     o = Returned (mkResponse StatusBadRequest (ErrorPayload msg err)) \/
     o = Returned (mkResponse StatusUnauthorized (ErrorPayload msg err))) /\
  forallb beforeAuth (calls t) = true.
Proof.
  intros Hr Hu. unfold handlerUploadVideo in Hr.
  walk Hr; cbn in Hu; try discriminate.
  all: split; [do 2 eexists; (left; reflexivity) || (right; reflexivity)
              | reflexivity].
Qed.

Lemma upload_video_requires_valid_token_witness :
  (exists msg err,
     snd refusedUploadRun
     = Returned (mkResponse StatusBadRequest (ErrorPayload msg err)) \/
     snd refusedUploadRun
     = Returned (mkResponse StatusUnauthorized (ErrorPayload msg err))) /\
  forallb beforeAuth (calls (fst refusedUploadRun)) = true.
Proof.
  apply (upload_video_requires_valid_token tubelyCfg uploadRequest
           (fst refusedUploadRun) (snd refusedUploadRun)).
  - apply run_runs.
  - reflexivity.
Defined.

(** X5. The same holds of [handlerUploadThumbnail]: without an accepted
    access token it answers 400 or 401 and has neither read the upload nor
    created a file nor touched the metadata store. *)
Theorem upload_thumbnail_requires_valid_token (cfg : apiConfig)
    (r : Request) (t : Trace) (o : Outcome Response) :
  runs (handlerUploadThumbnail cfg r) t o ->
  firstSome validatedUserOf t = None ->
  (exists msg err,
     o = Returned (mkResponse StatusBadRequest (ErrorPayload msg err)) \/
     o = Returned (mkResponse StatusUnauthorized (ErrorPayload msg err))) /\
  forallb beforeAuth (calls t) = true.
Proof.
  intros Hr Hu. unfold handlerUploadThumbnail in Hr.
  walk Hr; cbn in Hu; try discriminate.
  all: split; [do 2 eexists; (left; reflexivity) || (right; reflexivity)
              | reflexivity].
Qed.

Lemma upload_thumbnail_requires_valid_token_witness :
  (exists msg err,
     snd refusedThumbnailRun
     = Returned (mkResponse StatusBadRequest (ErrorPayload msg err)) \/
     snd refusedThumbnailRun
     = Returned (mkResponse StatusUnauthorized (ErrorPayload msg err))) /\
  forallb beforeAuth (calls (fst refusedThumbnailRun)) = true.
Proof.
  apply (upload_thumbnail_requires_valid_token tubelyCfg uploadRequest
           (fst refusedThumbnailRun) (snd refusedThumbnailRun)).
  - apply run_runs.
  - reflexivity.
Defined.

(** X6. Once [handlerUploadVideo] has created its temporary file, every
    run, whatever its answer, ends by closing that file, removing it by its
    name and closing the uploaded part, in this order; the file is removed
    exactly once. *)
Theorem upload_video_removes_temp_file (cfg : apiConfig) (r : Request)
    (t : Trace) (o : Outcome Response) (tempFile : OsFile)
    (videoFile : MultipartFile) :
  runs (handlerUploadVideo cfg r) t o ->
  firstSome createdTempOf t = Some tempFile ->
  firstSome formFileOf t = Some videoFile ->
  lastn 3 (calls t)
  = [OsFileClose tempFile; OsRemove (Name tempFile);
     MultipartFileClose videoFile] /\
  countb isOsRemove (calls t) = 1%nat.
Proof.
  intros Hr Hf Hv. unfold handlerUploadVideo in Hr.
  walk Hr; cbn in Hf, Hv; try discriminate;
    injection Hf as <-; injection Hv as <-.
  all: split; reflexivity.
Qed.

Lemma upload_video_removes_temp_file_witness :
  lastn 3 (calls (fst ownerUploadRun))
  = [OsFileClose (mkOsFile 4 "/srv/tubely/assets/tubely-upload.mp42381");
     OsRemove (Name (mkOsFile 4 "/srv/tubely/assets/tubely-upload.mp42381"));
     MultipartFileClose 3%N] /\
  countb isOsRemove (calls (fst ownerUploadRun)) = 1%nat.
Proof.
  apply (upload_video_removes_temp_file tubelyCfg uploadRequest
           (fst ownerUploadRun) (snd ownerUploadRun)).
  - apply run_runs.
  - reflexivity.
  - reflexivity.
Defined.

(** X7. [handlerUploadVideo] records a media reference only for an object
    the store has accepted: an update of the metadata store writes the
    fetched video, owned by the requester, with the media reference set to
    the permanent address of a key ending in [.mp4], and the object store
    has before agreed to keep that key in the configured bucket as
    [video/mp4]. *)
Theorem upload_video_records_stored_object (cfg : apiConfig) (r : Request)
    (t : Trace) (o : Outcome Response) (d : DBClient) (v : Video) :
  runs (handlerUploadVideo cfg r) t o ->
  firstSome updateCallOf (calls t) = Some (d, v) ->
  exists stored encoded,
    d = db cfg /\
    firstSome fetchedVideoOf t = Some stored /\
    firstSome validatedUserOf t = Some (UserID stored) /\
    v = setVideoURL stored (Some (permanentURL cfg (encoded ++ ".mp4"))) /\
    firstSome storedObjectOf t
    = Some (s3Client cfg, s3Bucket cfg, encoded ++ ".mp4", "video/mp4").
Proof.
  intros Hr Hc. unfold handlerUploadVideo in Hr.
  walk Hr; cbn in Hc; try discriminate; injection Hc as <- <-.
  all: owner_cases;
    match goal with
    | E : String.eqb _ _ = true |- _ => apply String.eqb_eq in E; subst
    end.
  all: do 2 eexists; cbn;
    repeat split; try reflexivity; congruence.
Qed.

Lemma upload_video_records_stored_object_witness :
  exists stored encoded,
    1%N = db tubelyCfg /\
    firstSome fetchedVideoOf (fst ownerUploadRun) = Some stored /\
    firstSome validatedUserOf (fst ownerUploadRun) = Some (UserID stored) /\
    setVideoURL (holiday None)
      (Some (permanentURL tubelyCfg (zeroKey ++ ".mp4")))
    = setVideoURL stored (Some (permanentURL tubelyCfg (encoded ++ ".mp4"))) /\
    firstSome storedObjectOf (fst ownerUploadRun)
    = Some (s3Client tubelyCfg, s3Bucket tubelyCfg, encoded ++ ".mp4",
            "video/mp4").
Proof.
  apply (upload_video_records_stored_object tubelyCfg uploadRequest
           (fst ownerUploadRun) (snd ownerUploadRun)).
  - apply run_runs.
  - reflexivity.
Defined.

(** X8. When [GetVideo] returns an error, [handlerUploadVideo] answers
    500 "Couldn't get video" with that error, and by then it has neither
    read the upload nor made any mutating call. *)
Theorem upload_video_lookup_failure_is_500 (cfg : apiConfig) (r : Request)
    (t : Trace) (o : Outcome Response) (e : error) :
  runs (handlerUploadVideo cfg r) t o ->
  firstSome fetchErrorOf t = Some e ->
  o = Returned (mkResponse StatusInternalServerError
                  (ErrorPayload "Couldn't get video" (Some e))) /\
  existsb isRequestFormFile (calls t) = false /\
  existsb mutates (calls t) = false.
Proof.
  intros Hr He. unfold handlerUploadVideo in Hr.
  walk Hr; cbn in He; try discriminate; injection He as <-.
  repeat split; reflexivity.
Qed.

Lemma upload_video_lookup_failure_is_500_witness :
  snd failingLookupUploadRun
  = Returned (mkResponse StatusInternalServerError
                (ErrorPayload "Couldn't get video"
                   (Some "database is locked"))) /\
  existsb isRequestFormFile (calls (fst failingLookupUploadRun)) = false /\
  existsb mutates (calls (fst failingLookupUploadRun)) = false.
Proof.
  apply (upload_video_lookup_failure_is_500 tubelyCfg uploadRequest
           (fst failingLookupUploadRun) (snd failingLookupUploadRun)).
  - apply run_runs.
  - reflexivity.
Defined.

(** X9. [handlerUploadVideo] answers 200 exactly when its update of the
    metadata store succeeded; in particular a failed copy of the upload into
    the temporary file, whose result the handler drops, does not keep it
    from answering 200. *)
Theorem upload_video_ok_iff_recorded (cfg : apiConfig) (r : Request)
    (t : Trace) (o : Outcome Response) :
  runs (handlerUploadVideo cfg r) t o ->
  ((exists p, o = Returned (mkResponse StatusOK p)) <->
   firstSome updateAnswerOf t = Some None).
Proof.
  intros Hr. unfold handlerUploadVideo in Hr.
  walk Hr; cbn; split.
  all: try (intros [p H]; injection H as H _; now cbv in H).
  all: try (intros H; discriminate H).
  all: try reflexivity.
  all: intros _; eexists; reflexivity.
Qed.

Lemma upload_video_ok_iff_recorded_witness :
  (exists p, snd ownerUploadRun = Returned (mkResponse StatusOK p)) <->
  firstSome updateAnswerOf (fst ownerUploadRun) = Some None.
Proof.
  apply (upload_video_ok_iff_recorded tubelyCfg uploadRequest
           (fst ownerUploadRun) (snd ownerUploadRun)).
  apply run_runs.
Defined.

(** X10. A thumbnail upload answered 200 returns the fetched video, owned
    by the requester, with only the thumbnail reference replaced by
    [http://localhost:<port>/assets/<base>], where [<base>] is what
    [filepath.Base] answered for the path that [filepath.Join] produced and
    [os.Create] created; it is the very record written to the metadata
    store, and its media reference is the stored one: the thumbnail handler
    asks for no signed URL. *)
Theorem upload_thumbnail_success (cfg : apiConfig) (r : Request)
    (t : Trace) (o : Outcome Response) (resp : Response) :
  runs (handlerUploadThumbnail cfg r) t o ->
  o = Returned resp ->
  status resp = StatusOK ->
  exists stored pathToFile base,
    firstSome fetchedVideoOf t = Some stored /\
    firstSome validatedUserOf t = Some (UserID stored) /\
    firstSome joinedPathOf t = Some pathToFile /\
    firstSome createCallOf (calls t) = Some pathToFile /\
    firstSome baseNameOf t = Some (pathToFile, base) /\
    payload resp
    = VideoPayload
        (setThumbnailURL stored
           (Some ("http://localhost:" ++ port cfg ++ "/assets/" ++ base))) /\
    firstSome updateCallOf (calls t)
    = Some (db cfg,
            setThumbnailURL stored
              (Some ("http://localhost:" ++ port cfg ++ "/assets/"
                     ++ base))) /\
    existsb isPresign (calls t) = false.
Proof.
  intros Hr Ho Hs. unfold handlerUploadThumbnail in Hr.
  walk Hr; injection Ho as <-; cbn in Hs; try discriminate.
  owner_cases. do 3 eexists. cbn.
  repeat split; try reflexivity; congruence.
Qed.

Lemma upload_thumbnail_success_witness :
  exists stored pathToFile base,
    firstSome fetchedVideoOf (fst ownerThumbnailRun) = Some stored /\
    firstSome validatedUserOf (fst ownerThumbnailRun) = Some (UserID stored) /\
    firstSome joinedPathOf (fst ownerThumbnailRun) = Some pathToFile /\
    firstSome createCallOf (calls (fst ownerThumbnailRun)) = Some pathToFile /\
    firstSome baseNameOf (fst ownerThumbnailRun) = Some (pathToFile, base) /\
    VideoPayload
      (setThumbnailURL (holiday None)
         (Some "http://localhost:8091/assets/00000000-0000-0000-0000-000000000007.png"))
    = VideoPayload
        (setThumbnailURL stored
           (Some ("http://localhost:" ++ port tubelyCfg ++ "/assets/" ++ base))) /\
    firstSome updateCallOf (calls (fst ownerThumbnailRun))
    = Some (db tubelyCfg,
            setThumbnailURL stored
              (Some ("http://localhost:" ++ port tubelyCfg ++ "/assets/"
                     ++ base))) /\
    existsb isPresign (calls (fst ownerThumbnailRun)) = false.
Proof.
  apply (upload_thumbnail_success tubelyCfg uploadRequest
           (fst ownerThumbnailRun) (snd ownerThumbnailRun)
           (mkResponse StatusOK
              (VideoPayload
                 (setThumbnailURL (holiday None)
                    (Some "http://localhost:8091/assets/00000000-0000-0000-0000-000000000007.png"))))).
  - apply run_runs.
  - reflexivity.
  - reflexivity.
Defined.

(** X11. Once [handlerUploadThumbnail] has created the thumbnail file,
    every run ends by closing that file and then the uploaded part, and in
    no run is a file removed: what was written stays on disk also when the
    copy, the lookup, the ownership check or the update fails. *)
Theorem upload_thumbnail_keeps_file (cfg : apiConfig) (r : Request)
    (t : Trace) (o : Outcome Response) (newFile : OsFile)
    (file : MultipartFile) :
  runs (handlerUploadThumbnail cfg r) t o ->
  firstSome createdFileOf t = Some newFile ->
  firstSome formFileOf t = Some file ->
  lastn 2 (calls t) = [OsFileClose newFile; MultipartFileClose file] /\
  existsb isOsRemove (calls t) = false.
Proof.
  intros Hr Hf Hv. unfold handlerUploadThumbnail in Hr.
  walk Hr; cbn in Hf, Hv; try discriminate;
    injection Hf as <-; injection Hv as <-.
  all: split; reflexivity.
Qed.

Lemma upload_thumbnail_keeps_file_witness :
  lastn 2 (calls (fst intruderThumbnailRun))
  = [OsFileClose
       (mkOsFile 5
          "/srv/tubely/assets/00000000-0000-0000-0000-000000000007.png");
     MultipartFileClose 3%N] /\
  existsb isOsRemove (calls (fst intruderThumbnailRun)) = false.
Proof.
  apply (upload_thumbnail_keeps_file tubelyCfg uploadRequest
           (fst intruderThumbnailRun) (snd intruderThumbnailRun)).
  - apply run_runs.
  - reflexivity.
  - reflexivity.
Defined.

(** X12. [handlerUploadVideo] does not look at the result of copying the
    upload into its temporary file: when the copy reports an error the
    handler still goes on to draw a key, and it answers 200 as soon as the
    object store and the metadata store accept what it sends them. *)
Theorem upload_video_ignores_copy_error (cfg : apiConfig) (r : Request)
    (t : Trace) (o : Outcome Response) (e : error) :
  runs (handlerUploadVideo cfg r) t o ->
  firstSome copyErrorOf t = Some e ->
  existsb isRandRead (calls t) = true /\
  (firstSome updateAnswerOf t = Some None ->
   exists p, o = Returned (mkResponse StatusOK p)).
Proof.
  intros Hr He. unfold handlerUploadVideo in Hr.
  walk Hr; cbn in He; try discriminate.
  all: match type of He with
       | context [snd ?x] => destruct x as [n [e' |]]
       end; cbn in He; try discriminate; injection He as <-.
  all: split; [reflexivity |].
  all: cbn; intros H; try discriminate H; eexists; reflexivity.
Qed.

Lemma upload_video_ignores_copy_error_witness :
  existsb isRandRead (calls (fst failingCopyUploadRun)) = true /\
  (firstSome updateAnswerOf (fst failingCopyUploadRun) = Some None ->
   exists p, snd failingCopyUploadRun = Returned (mkResponse StatusOK p)).
Proof.
  apply (upload_video_ignores_copy_error tubelyCfg uploadRequest
           (fst failingCopyUploadRun) (snd failingCopyUploadRun)
           "write: no space left on device").
  - apply run_runs.
  - reflexivity.
Defined.

(** X13. [handlerUploadThumbnail] does look at it: when the copy into the
    thumbnail file reports an error the answer is 500 with that error, and
    the metadata store is neither read nor written. *)
Theorem upload_thumbnail_copy_error_is_500 (cfg : apiConfig) (r : Request)
    (t : Trace) (o : Outcome Response) (e : error) :
  runs (handlerUploadThumbnail cfg r) t o ->
  firstSome copyErrorOf t = Some e ->
  o = Returned (mkResponse StatusInternalServerError
                  (ErrorPayload "Couldn't save file" (Some e))) /\
  existsb isDbGetVideo (calls t) = false /\
  existsb isDbUpdateVideo (calls t) = false.
Proof.
  intros Hr He. unfold handlerUploadThumbnail in Hr.
  walk Hr; cbn in He; try discriminate; injection He as <-.
  repeat split; reflexivity.
Qed.

Lemma upload_thumbnail_copy_error_is_500_witness :
  snd failingCopyThumbnailRun
  = Returned (mkResponse StatusInternalServerError
                (ErrorPayload "Couldn't save file"
                   (Some "write: no space left on device"))) /\
  existsb isDbGetVideo (calls (fst failingCopyThumbnailRun)) = false /\
  existsb isDbUpdateVideo (calls (fst failingCopyThumbnailRun)) = false.
Proof.
  apply (upload_thumbnail_copy_error_is_500 tubelyCfg uploadRequest
           (fst failingCopyThumbnailRun) (snd failingCopyThumbnailRun)).
  - apply run_runs.
  - reflexivity.
Defined.

(** ** The name of the thumbnail file *)

#[local] Arguments String.append : simpl nomatch.

Lemma String_length_app (x y : string) :
  String.length (x ++ y) = (String.length x + String.length y)%nat.
Proof.
  induction x as [| a x IH]; cbn [append String.length]; [reflexivity |].
  now rewrite IH.
Qed.

Lemma hexDigit_not_slash (n : N) : Ascii.eqb (hexDigit n) slash = false.
Proof.
  unfold hexDigit. generalize (N.to_nat n) as k. intros k.
  do 16 (destruct k as [| k]; [reflexivity |]).
  destruct k; reflexivity.
Qed.

Lemma hexDigits_no_slash (u : UUID) (from : N) (len : nat) :
  hasByte slash (hexDigits u from len) = false.
Proof.
  revert from. induction len as [| len IH]; intros from;
    cbn [hexDigits hasByte]; [reflexivity |].
  now rewrite hexDigit_not_slash, IH.
Qed.

Lemma hexDigits_length (u : UUID) (from : N) (len : nat) :
  String.length (hexDigits u from len) = len.
Proof.
  revert from. induction len as [| len IH]; intros from;
    cbn [hexDigits String.length]; [reflexivity |].
  now rewrite IH.
Qed.

Lemma uuid_String_no_slash (u : UUID) : hasByte slash (uuid_String u) = false.
Proof.
  unfold uuid_String.
  repeat rewrite hasByte_app. repeat rewrite hexDigits_no_slash.
  reflexivity.
Qed.

Lemma uuid_String_length (u : UUID) : String.length (uuid_String u) = 36%nat.
Proof.
  unfold uuid_String.
  repeat rewrite String_length_app. repeat rewrite hexDigits_length.
  reflexivity.
Qed.

Lemma mimeToExt_cases (mime : string) :
  In (mimeToExt mime) ["jpg"; "png"; "gif"; "bin"].
Proof.
  unfold mimeToExt.
  destruct (String.eqb mime "image/jpeg"); [simpl; tauto |].
  destruct (String.eqb mime "image/png"); [simpl; tauto |].
  destruct (String.eqb mime "image/gif"); simpl; tauto.
Qed.

Lemma thumbnail_name_is_flat (u : UUID) (mime : string) :
  hasByte slash (uuid_String u ++ "." ++ mimeToExt mime) = false /\
  String.length (uuid_String u ++ "." ++ mimeToExt mime) = 40%nat.
Proof.
  repeat rewrite hasByte_app. repeat rewrite String_length_app.
  rewrite uuid_String_no_slash, uuid_String_length.
  destruct (mimeToExt_cases mime) as [<- | [<- | [<- | [<- | []]]]];
    split; reflexivity.
Qed.

#[local] Arguments String.append : simpl never.

(** X14. Whatever Content-Type the client declares for the thumbnail, and
    whatever the video id, the file name [handlerUploadThumbnail] joins to
    the assets directory is the 36 characters of the id, a dot and one of
    [jpg], [png], [gif], [bin]: 40 bytes without any slash, so the declared
    type cannot steer the write to another directory. *)
Theorem thumbnail_file_name_is_flat (cfg : apiConfig) (r : Request)
    (t : Trace) (o : Outcome Response) (dir file : string) :
  runs (handlerUploadThumbnail cfg r) t o ->
  firstSome joinCallOf (calls t) = Some (dir, file) ->
  dir = assetsRoot cfg /\
  hasByte slash file = false /\
  String.length file = 40%nat /\
  exists id ext, file = uuid_String id ++ "." ++ ext /\
                 In ext ["jpg"; "png"; "gif"; "bin"].
Proof.
  intros Hr Hj. unfold handlerUploadThumbnail in Hr.
  walk Hr; cbn in Hj; try discriminate; injection Hj as <- <-.
  all: split; [reflexivity |].
  all: split; [apply thumbnail_name_is_flat |].
  all: split; [apply thumbnail_name_is_flat |].
  all: do 2 eexists; split; [reflexivity | apply mimeToExt_cases].
Qed.

Lemma thumbnail_file_name_is_flat_witness :
  "/srv/tubely/assets" = assetsRoot tubelyCfg /\
  hasByte slash "00000000-0000-0000-0000-000000000007.png" = false /\
  String.length "00000000-0000-0000-0000-000000000007.png" = 40%nat /\
  exists id ext,
    "00000000-0000-0000-0000-000000000007.png" = uuid_String id ++ "." ++ ext /\
    In ext ["jpg"; "png"; "gif"; "bin"].
Proof.
  apply (thumbnail_file_name_is_flat tubelyCfg uploadRequest
           (fst ownerThumbnailRun) (snd ownerThumbnailRun)).
  - apply run_runs.
  - reflexivity.
Defined.

(** ** The aspect ratio probe *)

Lemma big_NewRat_nonzero (a b : Z) :
  b <> 0%Z -> exists q, big_NewRat a b = Some q /\
                        forall n d, Rat_Cmp_is_0 q (n # d) = true <->
                                    (a * Z.pos d = n * b)%Z.
Proof.
  intros Hb. unfold big_NewRat.
  destruct (Z.eqb_spec b 0) as [| _]; [contradiction |].
  destruct (Z.ltb_spec 0 b) as [Hpos | Hneg].
  - eexists; split; [reflexivity |]. intros n d.
    unfold Rat_Cmp_is_0, Qcompare. cbn [Qnum Qden].
    rewrite Z2Pos.id by lia.
    destruct (Z.compare_spec (a * Z.pos d) (n * b)); split;
      intros; try discriminate; try lia; reflexivity.
  - eexists; split; [reflexivity |]. intros n d.
    unfold Rat_Cmp_is_0, Qcompare. cbn [Qnum Qden].
    rewrite Z2Pos.id by lia.
    destruct (Z.compare_spec (- a * Z.pos d) (n * - b)); split;
      intros; try discriminate; try lia; reflexivity.
Qed.

(** X15. [getVideoAspectRatio] never panics: the stream list is indexed
    only when it is not empty and the fraction is built only when the height
    is not 0.  It returns either an error with the empty string, or no
    error with one of ["16:9"], ["9:16"] and ["other"]. *)
Theorem aspect_ratio_never_panics (sys : Probe) (filePath : string) :
  exists ratio err,
    getVideoAspectRatio sys filePath = Returned (ratio, err) /\
    ((err = None /\ In ratio ["16:9"; "9:16"; "other"]) \/
     (err <> None /\ ratio = "")).
Proof.
  unfold getVideoAspectRatio.
  destruct (cmd_Run sys _) as [out [e |]];
    [do 2 eexists; split; [reflexivity | right; split; congruence] |].
  destruct (json_Unmarshal sys out) as [result [e |]];
    [do 2 eexists; split; [reflexivity | right; split; congruence] |].
  destruct (Streams result) as [| s0 rest]; cbn [length Nat.eqb nth_error orPanic];
    [do 2 eexists; split; [reflexivity | right; split; congruence] |].
  destruct (Z.eqb_spec (Width s0) 0) as [| Hw]; cbn [orb];
    [do 2 eexists; split; [reflexivity | right; split; congruence] |].
  destruct (Z.eqb_spec (Height s0) 0) as [| Hh];
    [do 2 eexists; split; [reflexivity | right; split; congruence] |].
  destruct (big_NewRat_nonzero (Width s0) (Height s0) Hh) as (q & -> & _).
  cbn [orPanic]. change (big_NewRat 16 9) with (Some (16 # 9)).
  change (big_NewRat 9 16) with (Some (9 # 16)). cbn [orPanic].
  destruct (Rat_Cmp_is_0 q (16 # 9));
    [do 2 eexists; split; [reflexivity | left; simpl; tauto] |].
  destruct (Rat_Cmp_is_0 q (9 # 16));
    [do 2 eexists; split; [reflexivity | left; simpl; tauto] |].
  destruct (nearSixteenNine _ _);
    [do 2 eexists; split; [reflexivity | left; simpl; tauto] |].
  destruct (nearNineSixteen _ _);
    do 2 eexists; (split; [reflexivity | left; simpl; tauto]).
Qed.

(** X16. When the probe succeeds and the first stream's width and height
    are in the proportion 16 to 9 exactly, the answer is ["16:9"]; when they
    are in the proportion 9 to 16 exactly, it is ["9:16"]; the float
    comparisons are not consulted, and negative pairs count as their
    quotient. *)
Theorem aspect_ratio_exact (sys : Probe) (filePath : string)
    (out : list Byte.byte) (result : FFProbeResult) (s0 : FFProbeStream)
    (rest : list FFProbeStream) :
  cmd_Run sys (ffprobeArgs filePath) = (out, None) ->
  json_Unmarshal sys out = (result, None) ->
  Streams result = s0 :: rest ->
  Height s0 <> 0%Z ->
  ((9 * Width s0 = 16 * Height s0)%Z ->
   getVideoAspectRatio sys filePath = Returned ("16:9", None)) /\
  ((16 * Width s0 = 9 * Height s0)%Z ->
   getVideoAspectRatio sys filePath = Returned ("9:16", None)).
Proof.
  intros Hc Hj Hs Hh. unfold getVideoAspectRatio.
  fold (ffprobeArgs filePath). rewrite Hc, Hj, Hs.
  cbn [length Nat.eqb nth_error orPanic].
  destruct (big_NewRat_nonzero (Width s0) (Height s0) Hh) as (q & Eq & Hq).
  rewrite Eq. cbn [orPanic]. change (big_NewRat 16 9) with (Some (16 # 9)).
  change (big_NewRat 9 16) with (Some (9 # 16)). cbn [orPanic].
  destruct (Z.eqb_spec (Height s0) 0) as [| _]; [contradiction |].
  rewrite orb_false_r.
  split; intros Hr.
  - destruct (Z.eqb_spec (Width s0) 0) as [Hw | _]; [lia |].
    replace (Rat_Cmp_is_0 q (16 # 9)) with true; [reflexivity |].
    symmetry. apply Hq. lia.
  - destruct (Z.eqb_spec (Width s0) 0) as [Hw | _]; [lia |].
    replace (Rat_Cmp_is_0 q (16 # 9)) with false.
    + replace (Rat_Cmp_is_0 q (9 # 16)) with true; [reflexivity |].
      symmetry. apply Hq. lia.
    + symmetry. apply not_true_is_false. intros Ht. apply Hq in Ht. lia.
Qed.

Lemma aspect_ratio_exact_witness :
  ((9 * Width (mkFFProbeStream 1920 1080)
    = 16 * Height (mkFFProbeStream 1920 1080))%Z ->
   getVideoAspectRatio (probeOf [mkFFProbeStream 1920 1080]) "clip.mp4"
   = Returned ("16:9", None)) /\
  ((16 * Width (mkFFProbeStream 1920 1080)
    = 9 * Height (mkFFProbeStream 1920 1080))%Z ->
   getVideoAspectRatio (probeOf [mkFFProbeStream 1920 1080]) "clip.mp4"
   = Returned ("9:16", None)).
Proof.
  apply (aspect_ratio_exact (probeOf [mkFFProbeStream 1920 1080]) "clip.mp4"
           [] (mkFFProbeResult [mkFFProbeStream 1920 1080])
           (mkFFProbeStream 1920 1080) []).
  - reflexivity.
  - reflexivity.
  - reflexivity.
  - discriminate.
Defined.

(** X17. When the probe succeeds but lists no stream, the answer is the
    error ["no video streams found"]; when the first stream has width 0 or
    height 0 (as a stream without these fields decodes), it is the error
    ["invalid video dimensions"], whatever streams follow. *)
Theorem aspect_ratio_unusable_streams (sys : Probe) (filePath : string)
    (out : list Byte.byte) (result : FFProbeResult) :
  cmd_Run sys (ffprobeArgs filePath) = (out, None) ->
  json_Unmarshal sys out = (result, None) ->
  (Streams result = [] ->
   getVideoAspectRatio sys filePath
   = Returned ("", Some "no video streams found")) /\
  (forall s0 rest, Streams result = s0 :: rest ->
     Width s0 = 0%Z \/ Height s0 = 0%Z ->
     getVideoAspectRatio sys filePath
     = Returned ("", Some "invalid video dimensions")).
Proof.
  intros Hc Hj. unfold getVideoAspectRatio.
  fold (ffprobeArgs filePath). rewrite Hc, Hj. split.
  - intros ->. reflexivity.
  - intros s0 rest -> Hz. cbn [length Nat.eqb nth_error orPanic].
    destruct Hz as [-> | ->]; [reflexivity |].
    rewrite orb_true_r. reflexivity.
Qed.

Lemma aspect_ratio_unusable_streams_witness :
  (Streams (mkFFProbeResult [mkFFProbeStream 0 0; mkFFProbeStream 1280 720])
   = [] ->
   getVideoAspectRatio
     (probeOf [mkFFProbeStream 0 0; mkFFProbeStream 1280 720]) "clip.mp4"
   = Returned ("", Some "no video streams found")) /\
  (forall s0 rest,
     Streams (mkFFProbeResult [mkFFProbeStream 0 0; mkFFProbeStream 1280 720])
     = s0 :: rest ->
     Width s0 = 0%Z \/ Height s0 = 0%Z ->
     getVideoAspectRatio
       (probeOf [mkFFProbeStream 0 0; mkFFProbeStream 1280 720]) "clip.mp4"
     = Returned ("", Some "invalid video dimensions")).
Proof.
  apply (aspect_ratio_unusable_streams
           (probeOf [mkFFProbeStream 0 0; mkFFProbeStream 1280 720])
           "clip.mp4" []).
  - reflexivity.
  - reflexivity.
Defined.

(** ** Start-up *)

Lemma isEmpty_false (s : string) : isEmpty s = false -> s <> "".
Proof. unfold isEmpty. intros H. now apply String.eqb_neq in H. Qed.

(** X18. [main] starts serving only with a complete configuration: the
    database path and the eight strings of the configuration are the values
    of their environment variables and none of them is empty, the server
    listens on [":" ++ port], and the two upload routes lead to the two
    upload handlers. *)
Theorem main_serves_complete_config (sys : Startup) (cfg : apiConfig)
    (addr : string) (routes : list (string * Handler)) :
  main sys = Serving cfg addr routes ->
  Getenv sys "DB_PATH" <> "" /\
  (jwtSecret cfg = Getenv sys "JWT_SECRET" /\ jwtSecret cfg <> "") /\
  (platform cfg = Getenv sys "PLATFORM" /\ platform cfg <> "") /\
  (filepathRoot cfg = Getenv sys "FILEPATH_ROOT" /\ filepathRoot cfg <> "") /\
  (assetsRoot cfg = Getenv sys "ASSETS_ROOT" /\ assetsRoot cfg <> "") /\
  (s3Bucket cfg = Getenv sys "S3_BUCKET" /\ s3Bucket cfg <> "") /\
  (s3Region cfg = Getenv sys "S3_REGION" /\ s3Region cfg <> "") /\
  (s3CfDistribution cfg = Getenv sys "S3_CF_DISTRO" /\
   s3CfDistribution cfg <> "") /\
  (port cfg = Getenv sys "PORT" /\ port cfg <> "") /\
  addr = ":" ++ port cfg /\
  In ("POST /api/video_upload/{videoID}", HandlerUploadVideo) routes /\
  In ("POST /api/thumbnail_upload/{videoID}", HandlerUploadThumbnail) routes.
Proof.
  unfold main. intros H.
  destruct (isEmpty (Getenv sys "DB_PATH")) eqn:E0; [discriminate |].
  destruct (database_NewClient sys _) as [d [e |]]; [discriminate |].
  destruct (isEmpty (Getenv sys "JWT_SECRET")) eqn:E1; [discriminate |].
  destruct (isEmpty (Getenv sys "PLATFORM")) eqn:E2; [discriminate |].
  destruct (isEmpty (Getenv sys "FILEPATH_ROOT")) eqn:E3; [discriminate |].
  destruct (isEmpty (Getenv sys "ASSETS_ROOT")) eqn:E4; [discriminate |].
  destruct (isEmpty (Getenv sys "S3_BUCKET")) eqn:E5; [discriminate |].
  destruct (isEmpty (Getenv sys "S3_REGION")) eqn:E6; [discriminate |].
  destruct (isEmpty (Getenv sys "S3_CF_DISTRO")) eqn:E7; [discriminate |].
  destruct (isEmpty (Getenv sys "PORT")) eqn:E8; [discriminate |].
  destruct (LoadDefaultConfig_NewFromConfig sys _) as [c [e |]];
    [discriminate |].
  destruct (ensureAssetsDir sys _) as [e |]; [discriminate |].
  injection H as <- <- <-. cbn [jwtSecret platform filepathRoot assetsRoot
    s3Bucket s3Region s3CfDistribution port].
  repeat split; try (apply isEmpty_false; assumption);
    cbn [In]; tauto.
Qed.

Lemma main_serves_complete_config_witness :
  Getenv tubelyStartup "DB_PATH" <> "" /\
  (jwtSecret tubelyCfg = Getenv tubelyStartup "JWT_SECRET" /\
   jwtSecret tubelyCfg <> "") /\
  (platform tubelyCfg = Getenv tubelyStartup "PLATFORM" /\
   platform tubelyCfg <> "") /\
  (filepathRoot tubelyCfg = Getenv tubelyStartup "FILEPATH_ROOT" /\
   filepathRoot tubelyCfg <> "") /\
  (assetsRoot tubelyCfg = Getenv tubelyStartup "ASSETS_ROOT" /\
   assetsRoot tubelyCfg <> "") /\
  (s3Bucket tubelyCfg = Getenv tubelyStartup "S3_BUCKET" /\
   s3Bucket tubelyCfg <> "") /\
  (s3Region tubelyCfg = Getenv tubelyStartup "S3_REGION" /\
   s3Region tubelyCfg <> "") /\
  (s3CfDistribution tubelyCfg = Getenv tubelyStartup "S3_CF_DISTRO" /\
   s3CfDistribution tubelyCfg <> "") /\
  (port tubelyCfg = Getenv tubelyStartup "PORT" /\ port tubelyCfg <> "") /\
  ":8091" = ":" ++ port tubelyCfg /\
  In ("POST /api/video_upload/{videoID}", HandlerUploadVideo)
     (match main tubelyStartup with
      | Serving _ _ routes => routes
      | Fatal _ => []
      end) /\
  In ("POST /api/thumbnail_upload/{videoID}", HandlerUploadThumbnail)
     (match main tubelyStartup with
      | Serving _ _ routes => routes
      | Fatal _ => []
      end).
Proof.
  apply (main_serves_complete_config tubelyStartup tubelyCfg ":8091").
  reflexivity.
Defined.

(** X19. When [handlerUploadVideo] gives an answer in the 4xx range, the
    handler itself has created no temporary file, copied nothing, stored no
    object, updated no database row and removed nothing; and for the
    answers 401 and 404 it has not even called [r.FormFile], so the upload
    was not parsed.  (What [r.FormFile] does inside while it parses the
    form, for the answers 400 and 415 given after it, is not part of the
    handler's own calls.) *)
Theorem upload_video_client_errors_change_nothing (cfg : apiConfig)
    (r : Request) (t : Trace) (o : Outcome Response) (resp : Response) :
  runs (handlerUploadVideo cfg r) t o ->
  o = Returned resp ->
  (400 <= status resp < 500)%Z ->
  existsb isOsCreateTemp (calls t) = false /\
  existsb isS3PutObject (calls t) = false /\
  existsb isDbUpdateVideo (calls t) = false /\
  existsb mutates (calls t) = false /\
  (status resp = StatusUnauthorized \/ status resp = StatusNotFound ->
   existsb isRequestFormFile (calls t) = false).
Proof.
  intros Hr Ho Hs. unfold handlerUploadVideo in Hr.
  walk Hr; injection Ho as <-; cbv in Hs; destruct Hs as [H1 H2];
    try (now elim H1); try (now discriminate H2).
  all: repeat split; try reflexivity.
  all: cbv; intros [H | H]; discriminate H.
Qed.

Lemma upload_video_client_errors_change_nothing_witness :
  (existsb isOsCreateTemp (calls (fst badMediaTypeUploadRun)) = false /\
   existsb isS3PutObject (calls (fst badMediaTypeUploadRun)) = false /\
   existsb isDbUpdateVideo (calls (fst badMediaTypeUploadRun)) = false /\
   existsb mutates (calls (fst badMediaTypeUploadRun)) = false /\
   (status (mkResponse StatusBadRequest
              (ErrorPayload "Invalid media type"
                 (Some "mime: no media type"))) = StatusUnauthorized \/
    status (mkResponse StatusBadRequest
              (ErrorPayload "Invalid media type"
                 (Some "mime: no media type"))) = StatusNotFound ->
    existsb isRequestFormFile (calls (fst badMediaTypeUploadRun)) = false)) /\
  (existsb isOsCreateTemp (calls (fst intruderUploadRun)) = false /\
   existsb isS3PutObject (calls (fst intruderUploadRun)) = false /\
   existsb isDbUpdateVideo (calls (fst intruderUploadRun)) = false /\
   existsb mutates (calls (fst intruderUploadRun)) = false /\
   (status (mkResponse StatusNotFound (ErrorPayload "Video not found" None))
    = StatusUnauthorized \/
    status (mkResponse StatusNotFound (ErrorPayload "Video not found" None))
    = StatusNotFound ->
    existsb isRequestFormFile (calls (fst intruderUploadRun)) = false)).
Proof.
  split.
  - apply (upload_video_client_errors_change_nothing tubelyCfg uploadRequest
             (fst badMediaTypeUploadRun) (snd badMediaTypeUploadRun)
             (mkResponse StatusBadRequest
                (ErrorPayload "Invalid media type"
                   (Some "mime: no media type")))).
    + apply run_runs.
    + reflexivity.
    + unfold StatusBadRequest. cbn [status]. lia.
  - apply (upload_video_client_errors_change_nothing tubelyCfg uploadRequest
             (fst intruderUploadRun) (snd intruderUploadRun)
             (mkResponse StatusNotFound
                (ErrorPayload "Video not found" None))).
    + apply run_runs.
    + reflexivity.
    + unfold StatusNotFound. cbn [status]. lia.
Defined.
